(** * mcp-pizzeria: the catalog loader, the cart store and its two surfaces

    A shallow embedding of [workspace/my-simple-server.js] (the pizzeria
    server: [loadPizzas], the [CART] map, the four registered tools and the
    HTML cart view), followed by the properties of the specification that
    are stated about it.

    Modelling conventions.
    - A JavaScript number is an IEEE 754 binary64 value: prices and totals
      are primitive floats, so [round2] below computes bit for bit what
      [Math.round(n * 100) / 100] computes.
    - A quantity is a number that the tool schema constrains to an integer;
      it is carried as a [Z] and converted back to a float where the code
      multiplies it with a price.  The two agree on the safe integers.
    - A string is a sequence of bytes ([string]); [trim] and [toLowerCase]
      act on the ASCII range.
    - [CART] is a JavaScript [Map]: an association list in insertion order.
    - Built-ins whose result is a matter of the language's number grammar
      ([Number(s)], [String(x)], [x.toFixed(2)]) are the fields of the class
      [Builtins]; a reference instance is given for concrete runs. *)

From Stdlib Require Import ZArith List String Ascii Bool Lia.
From Stdlib Require Import DecimalString.
From Stdlib Require Import PrimFloat SpecFloat FloatOps.
From ExtLib Require Import Structures.Monad Structures.MonadState.
From ExtLib Require Import Data.Monads.StateMonad.
Import ListNotations.
Import MonadNotation.

Set Warnings "-register-all,-inexact-float".

Local Open Scope string_scope.
Local Open Scope Z_scope.
Local Open Scope monad_scope.

(* ===================================================================== *)
(** ** JavaScript numbers *)
(* ===================================================================== *)

Module Num.

(** The number whose value is the integer [z] (rounded to nearest even
    beyond 2^53). *)
Definition of_Z (z : Z) : float :=
  SF2Prim (binary_normalize prec emax z 0 false).

(** [Number.isInteger(x)] together with the integer it denotes. *)
Definition integer_value (x : float) : option Z :=
  match Prim2SF x with
  | S754_zero _ => Some 0
  | S754_finite s m e =>
      let n := if s then Z.neg m else Z.pos m in
      if 0 <=? e then Some (n * 2 ^ e)
      else if Z.pos m mod 2 ^ (- e) =? 0 then Some (n / 2 ^ (- e))
      else None
  | S754_infinity _ | S754_nan => None
  end.

(** [Math.round(x)]: the nearest integer, a tie going towards +infinity;
    NaN and the infinities are returned as they are, and a result of zero
    keeps the sign of [x]. *)
Definition Math_round (x : float) : float :=
  match Prim2SF x with
  | S754_finite s m e =>
      if 0 <=? e then x
      else
        let d := 2 ^ (- e) in
        let n := if s then Z.neg m else Z.pos m in
        let r := (2 * n + d) / (2 * d) in
        if r =? 0 then (if s then (-0)%float else 0%float) else of_Z r
  | _ => x
  end.

(** [function round2(n) { return Math.round(n * 100) / 100; }] *)
Definition round2 (n : float) : float :=
  (Math_round (n * 100) / 100)%float.

(** [Number.isNaN(x)] *)
Definition isNaN (x : float) : bool := PrimFloat.is_nan x.

End Num.

(* ===================================================================== *)
(** ** JavaScript strings *)
(* ===================================================================== *)

Module Str.

Definition dquote : ascii := "034"%char.
Definition squote : ascii := "039"%char.
Definition LF : ascii := "010"%char.
Definition CR : ascii := "013"%char.

(** The one-character string. *)
Definition chr (c : ascii) : string := String c EmptyString.

Definition is_upper (c : ascii) : bool :=
  (65 <=? nat_of_ascii c)%nat && (nat_of_ascii c <=? 90)%nat.

Definition lower_char (c : ascii) : ascii :=
  if is_upper c then ascii_of_nat (nat_of_ascii c + 32) else c.

(** [s.toLowerCase()] *)
Fixpoint toLowerCase (s : string) : string :=
  match s with
  | EmptyString => EmptyString
  | String c r => String (lower_char c) (toLowerCase r)
  end.

(** White space and line terminators of the ASCII range: TAB, LF, VT, FF,
    CR and SPACE. *)
Definition is_space (c : ascii) : bool :=
  let n := nat_of_ascii c in
  ((9 <=? n)%nat && (n <=? 13)%nat) || (n =? 32)%nat.

Fixpoint trimStart (s : string) : string :=
  match s with
  | EmptyString => EmptyString
  | String c r => if is_space c then trimStart r else s
  end.

(** Drops the trailing white space: a character is kept when something
    that is not white space follows it or it is not white space itself. *)
Fixpoint trimEnd (s : string) : string :=
  match s with
  | EmptyString => EmptyString
  | String c r =>
      match trimEnd r with
      | EmptyString => if is_space c then EmptyString else chr c
      | r' => String c r'
      end
  end.

(** [s.trim()] *)
Definition trim (s : string) : string := trimEnd (trimStart s).

(** [s.split(c)] for a one-character separator: never the empty list. *)
Fixpoint split (sep : ascii) (s : string) : list string :=
  match s with
  | EmptyString => [EmptyString]
  | String c r =>
      if Ascii.eqb c sep then EmptyString :: split sep r
      else
        match split sep r with
        | [] => [chr c]
        | p :: ps => String c p :: ps
        end
  end.

(** Removes one final carriage return, the optional [\r] of [/\r?\n/]. *)
Fixpoint dropLastCR (s : string) : string :=
  match s with
  | EmptyString => EmptyString
  | String c EmptyString => if Ascii.eqb c CR then EmptyString else s
  | String c r => String c (dropLastCR r)
  end.

Fixpoint mapButLast {A} (f : A -> A) (l : list A) : list A :=
  match l with
  | [] => []
  | [x] => [x]
  | x :: r => f x :: mapButLast f r
  end.

(** [s.split(/\r?\n/)]: every piece that a line feed ends loses the
    carriage return just before that line feed. *)
Definition splitLines (s : string) : list string :=
  mapButLast dropLastCR (split LF s).

(** [s.startsWith(c)] for a one-character prefix. *)
Definition startsWith (c : ascii) (s : string) : bool :=
  match s with
  | String d _ => Ascii.eqb d c
  | EmptyString => false
  end.

(** [s.replace(c, by)] with a string pattern: the first occurrence only. *)
Fixpoint replaceFirst (c : ascii) (by_ : string) (s : string) : string :=
  match s with
  | EmptyString => EmptyString
  | String d r =>
      if Ascii.eqb d c then by_ ++ r else String d (replaceFirst c by_ r)
  end.

(** [s.replaceAll(c, by)] *)
Fixpoint replaceAll (c : ascii) (by_ : string) (s : string) : string :=
  match s with
  | EmptyString => EmptyString
  | String d r =>
      if Ascii.eqb d c then by_ ++ replaceAll c by_ r
      else String d (replaceAll c by_ r)
  end.

(** [l.join("")] *)
Definition concat (l : list string) : string := String.concat "" l.

(** The decimal numeral of an integer, as a template literal prints it. *)
Definition of_Z (z : Z) : string := NilZero.string_of_int (Z.to_int z).

Definition of_nat (n : nat) : string := NilZero.string_of_uint (Nat.to_uint n).

(** The characters of a string. *)
Definition chars (s : string) : list ascii := list_ascii_of_string s.

(** The five characters that [escapeHtml] replaces. *)
Definition is_markup (c : ascii) : bool :=
  Ascii.eqb c "&" || Ascii.eqb c "<" || Ascii.eqb c ">"
  || Ascii.eqb c dquote || Ascii.eqb c squote.

End Str.

(* ===================================================================== *)
(** ** JavaScript values, exceptions and coercions *)
(* ===================================================================== *)

Module Js.

(** The values that [JSON.parse] and the tool protocol hand to the code;
    an object is the list of its own properties. *)
Inductive Value : Type :=
| Undefined
| Null
| Bool (b : bool)
| Number (x : float)
| Str (s : string)
| Array (elements : list Value)
| Object (fields : list (string * Value)).

(** What a [throw] carries: [new Error(message)], or the [TypeError] of a
    property read on [null] or [undefined]. *)
Inductive Exn : Type :=
| Error (message : string)
| TypeError.

(** The outcome of code that may throw. *)
Inductive Result (A : Type) : Type :=
| Ok (a : A)
| Throw (e : Exn).
Arguments Ok {A} a.
Arguments Throw {A} e.

#[global] Instance Monad_Result : Monad Result :=
  {| ret := @Ok;
     bind := fun _ _ c k => match c with Ok a => k a | Throw e => Throw e end |}.

(** [l.map((x, idx) => f(idx, x))] for a callback that may throw: the
    elements are visited in order and the first exception ends the loop. *)
Fixpoint mapi_from {A B} (f : nat -> A -> Result B) (idx : nat) (l : list A)
  : Result (list B) :=
  match l with
  | [] => Ok []
  | x :: r =>
      y <- f idx x ;;
      ys <- mapi_from f (S idx) r ;;
      ret (y :: ys)
  end.

Definition mapi {A B} (f : nat -> A -> Result B) (l : list A) : Result (list B) :=
  mapi_from f 0%nat l.

Fixpoint lookup (k : string) (fields : list (string * Value)) : option Value :=
  match fields with
  | [] => None
  | (k', v) :: r => if String.eqb k' k then Some v else lookup k r
  end.

(** The property read [v.k] for a name [k] that no prototype defines
    ([name], [price], [ingredients], [allergens]). *)
Definition get (v : Value) (k : string) : Result Value :=
  match v with
  | Undefined | Null => Throw TypeError
  | Object fields =>
      match lookup k fields with
      | Some x => Ok x
      | None => Ok Undefined
      end
  | _ => Ok Undefined
  end.

End Js.

Export Js(Ok, Throw).

(** The built-ins that depend on the number grammar of the language. *)
Class Builtins : Type := {
  (** [Number(s)] for a string [s] *)
  StringToNumber : string -> float;
  (** [String(x)] for a number [x] *)
  NumberToString : float -> string;
  (** [x.toFixed(2)] *)
  toFixed2 : float -> string;
  (** a printed number contains none of the characters that HTML reserves *)
  toFixed2_plain :
    forall x c, In c (Str.chars (toFixed2 x)) -> Str.is_markup c = false
}.

Section Coercions.
Context `{Builtins}.

(** [String(v)] *)
Fixpoint ToString (v : Js.Value) : string :=
  match v with
  | Js.Undefined => "undefined"
  | Js.Null => "null"
  | Js.Bool true => "true"
  | Js.Bool false => "false"
  | Js.Number x => NumberToString x
  | Js.Str s => s
  | Js.Array elements =>
      (* Array.prototype.toString is join(","), where null and undefined
         elements print as the empty string *)
      String.concat ","
        (map (fun e => match e with
                       | Js.Undefined | Js.Null => ""
                       | _ => ToString e
                       end) elements)
  | Js.Object _ => "[object Object]"
  end.

(** [Number(v)] *)
Definition ToNumber (v : Js.Value) : float :=
  match v with
  | Js.Undefined => nan
  | Js.Null => 0%float
  | Js.Bool true => 1%float
  | Js.Bool false => 0%float
  | Js.Number x => x
  | Js.Str s => StringToNumber s
  | Js.Array _ | Js.Object _ => StringToNumber (ToString v)
  end.

End Coercions.

(* ===================================================================== *)
(** ** Loading the catalog *)
(* ===================================================================== *)

Module Pizza.
Record t : Type := {
  name : string;
  price : float;
  ingredients : list string;
  allergens : list string
}.
End Pizza.

(** What [loadPizzas] parses once the file is read: the value that
    [JSON.parse] returned for a [.json] path, the raw text otherwise. *)
Inductive Source : Type :=
| JsonFile (data : Js.Value)
| TextFile (raw : string).

Section Loader.
Context `{Builtins}.

(** [Array.isArray(v) ? v.map(String) : []] *)
Definition stringList (v : Js.Value) : list string :=
  match v with
  | Js.Array elements => map ToString elements
  | _ => []
  end.

Definition normalizePizza (p : Js.Value) : Js.Result Pizza.t :=
  name <- Js.get p "name" ;;
  price <- Js.get p "price" ;;
  ingredients <- Js.get p "ingredients" ;;
  allergens <- Js.get p "allergens" ;;
  ret {| Pizza.name := Str.trim (ToString name);
         Pizza.price := ToNumber price;
         Pizza.ingredients := stringList ingredients;
         Pizza.allergens := stringList allergens |}.

Definition splitList (s : string) : list string :=
  filter (fun x => negb (String.eqb x "")) (map Str.trim (Str.split "," s)).

(** The lines that the text format keeps: trimmed, not empty, no comment. *)
Definition dataLines (raw : string) : list string :=
  filter (fun l => negb (String.eqb l "") && negb (Str.startsWith "#" l))
    (map Str.trim (Str.splitLines raw)).

Definition formatMessage (idx : nat) : string :=
  "Ligne " ++ Str.of_nat (idx + 1) ++ ": format attendu "
  ++ Str.chr Str.dquote ++ "name | price | ingredients | allergens"
  ++ Str.chr Str.dquote.

Definition priceMessage (idx : nat) (priceStr : string) : string :=
  "Ligne " ++ Str.of_nat (idx + 1) ++ ": prix invalide "
  ++ Str.chr Str.dquote ++ priceStr ++ Str.chr Str.dquote.

(** The callback of [lines.map((line, idx) => ...)]; the destructuring
    pattern succeeds exactly when [parts.length < 4] is false. *)
Definition parseLine (idx : nat) (line : string) : Js.Result Pizza.t :=
  let parts := map Str.trim (Str.split "|" line) in
  match parts with
  | name :: priceStr :: ingredientsStr :: allergensStr :: _ =>
      let price := StringToNumber (Str.replaceFirst "," "." priceStr) in
      if Num.isNaN price then Throw (Js.Error (priceMessage idx priceStr))
      else
        let ingredients := splitList ingredientsStr in
        let allergens := splitList allergensStr in
        normalizePizza
          (Js.Object [("name", Js.Str name);
                      ("price", Js.Number price);
                      ("ingredients", Js.Array (map Js.Str ingredients));
                      ("allergens", Js.Array (map Js.Str allergens))])
  | _ => Throw (Js.Error (formatMessage idx))
  end.

Definition loadPizzas (src : Source) : Js.Result (list Pizza.t) :=
  match src with
  | JsonFile data =>
      match data with
      | Js.Array records => Js.mapi (fun _ p => normalizePizza p) records
      | _ => Throw (Js.Error "Le JSON doit être un tableau.")
      end
  | TextFile raw => Js.mapi parseLine (dataLines raw)
  end.

End Loader.

(* ===================================================================== *)
(** ** The cart: a [Map] from lower-cased name to line *)
(* ===================================================================== *)

(** [Map<string, V>]: the entries in insertion order, one per key. *)
Module JsMap.
Section Ops.
Context {V : Type}.

Definition t := list (string * V).

(** [m.get(k)], [None] standing for [undefined]. *)
Fixpoint get (k : string) (m : t) : option V :=
  match m with
  | [] => None
  | (k', v) :: r => if String.eqb k' k then Some v else get k r
  end.

(** [m.set(k, v)]: an existing key keeps its place, a new one goes last. *)
Fixpoint set (k : string) (v : V) (m : t) : t :=
  match m with
  | [] => [(k, v)]
  | (k', v') :: r =>
      if String.eqb k' k then (k, v) :: r else (k', v') :: set k v r
  end.

(** [m.delete(k)] *)
Fixpoint delete (k : string) (m : t) : t :=
  match m with
  | [] => []
  | (k', v') :: r =>
      if String.eqb k' k then delete k r else (k', v') :: delete k r
  end.

(** [Array.from(m.values())] *)
Definition values (m : t) : list V := map snd m.

Definition keys (m : t) : list string := map fst m.


(** A map holds each key once. *)
Definition wf (m : t) : Prop := NoDup (keys m).
End Ops.
Arguments t : clear implicits.
End JsMap.

Module CartLine.
Record t : Type := {
  name : string;
  unitPrice : float;
  quantity : Z
}.

(** The assignment [line.quantity = q] on the stored object. *)
Definition set_quantity (line : t) (q : Z) : t :=
  {| name := name line; unitPrice := unitPrice line; quantity := q |}.
End CartLine.

Module Item.
Record t : Type := {
  name : string;
  unitPrice : float;
  quantity : Z;
  lineTotal : float
}.
End Item.

Module Totals.
Record t : Type := {
  items : list Item.t;
  subtotal : float;
  currency : string
}.
End Totals.

Definition Cart : Type := JsMap.t CartLine.t.

(** The module-level state: [PIZZAS], assigned once at boot, and [CART]. *)
Record Server : Type := {
  PIZZAS : list Pizza.t;
  CART : Cart
}.

Definition boot (pizzas : list Pizza.t) : Server :=
  {| PIZZAS := pizzas; CART := [] |}.

(** Code that runs against the module-level state. *)
Definition Run : Type -> Type := state Server.

Definition getCART : Run Cart := gets CART.

Definition putCART (c : Cart) : Run unit :=
  modify (fun s => {| PIZZAS := PIZZAS s; CART := c |}) ;; ret tt.

Definition findPizzaByName (name : string) : Run (option Pizza.t) :=
  pizzas <- gets PIZZAS ;;
  let n := Str.toLowerCase (Str.trim name) in
  ret (find (fun p => String.eqb (Str.toLowerCase (Pizza.name p)) n) pizzas).

Definition toItem (item : CartLine.t) : Item.t :=
  {| Item.name := CartLine.name item;
     Item.unitPrice := CartLine.unitPrice item;
     Item.quantity := CartLine.quantity item;
     Item.lineTotal :=
       Num.round2 (CartLine.unitPrice item * Num.of_Z (CartLine.quantity item))%float |}.

Definition cartToArray : Run (list Item.t) :=
  cart <- getCART ;;
  ret (map toItem (JsMap.values cart)).

Definition cartTotals : Run Totals.t :=
  items <- cartToArray ;;
  let subtotal :=
    Num.round2 (fold_left (fun s it => (s + Item.lineTotal it)%float) items 0%float) in
  ret {| Totals.items := items; Totals.subtotal := subtotal; Totals.currency := "EUR" |}.

(* ===================================================================== *)
(** ** The registered tools *)
(* ===================================================================== *)

(** The text of a reply.  A reply built with [JSON.stringify(v, null, 2)]
    is represented by the value [v] that it serialises. *)
Inductive Content : Type :=
| Text (text : string)
| PizzasJson (pizzas : list Pizza.t)
| CartJson (cart : Totals.t).

(** [{ content: [{ type: "text", text }], isError }]; a reply without
    [isError] has [isError = false]. *)
Record ToolResult : Type := {
  content : Content;
  isError : bool
}.

Definition success (c : Content) : ToolResult := {| content := c; isError := false |}.
Definition failure (c : Content) : ToolResult := {| content := c; isError := true |}.

(** [new Set(l).has(x)] and [l.includes(x)] on strings. *)
Definition includes (l : list string) (x : string) : bool :=
  existsb (String.eqb x) l.

(** [v?.length] as a condition: the filter is given and not empty. *)
Definition given {A} (l : option (list A)) : option (list A) :=
  match l with
  | Some (_ :: _) => l
  | _ => None
  end.

Definition list_pizzas (maxPrice : option float)
    (excludeAllergens includeIngredients : option (list string)) : Run ToolResult :=
  pizzas <- gets PIZZAS ;;
  let list := pizzas in
  let list :=
    match maxPrice with
    | Some maxPrice => filter (fun p => (Pizza.price p <=? maxPrice)%float) list
    | None => list
    end in
  let list :=
    match given excludeAllergens with
    | Some excludeAllergens =>
        let ex := map Str.toLowerCase excludeAllergens in
        filter (fun p =>
                  negb (existsb (fun a => includes ex (Str.toLowerCase a))
                          (Pizza.allergens p))) list
    | None => list
    end in
  let list :=
    match given includeIngredients with
    | Some includeIngredients =>
        let need := map Str.toLowerCase includeIngredients in
        filter (fun p =>
                  let have := map Str.toLowerCase (Pizza.ingredients p) in
                  forallb (fun n => includes have n) need) list
    | None => list
    end in
  ret (success (PizzasJson list)).

Definition notFoundMessage (name : string) : string :=
  "Pizza introuvable: " ++ Str.chr Str.dquote ++ name ++ Str.chr Str.dquote
  ++ ". Utilise 'list_pizzas' pour voir les noms.".

Definition add_to_cart (name : string) (quantity : Z) : Run ToolResult :=
  pizza <- findPizzaByName name ;;
  match pizza with
  | None => ret (failure (Text (notFoundMessage name)))
  | Some pizza =>
      let key := Str.toLowerCase (Pizza.name pizza) in
      cart <- getCART ;;
      let current :=
        match JsMap.get key cart with
        | Some line => line
        | None => {| CartLine.name := Pizza.name pizza;
                     CartLine.unitPrice := Pizza.price pizza;
                     CartLine.quantity := 0 |}
        end in
      let current :=
        CartLine.set_quantity current (CartLine.quantity current + quantity) in
      putCART (JsMap.set key current cart) ;;
      totals <- cartTotals ;;
      ret (success (Text ("Ajouté: " ++ Str.of_Z quantity ++ " × " ++ Pizza.name pizza)))
  end.

Definition notInCartMessage (name : string) : string :=
  "Cette pizza n'est pas dans le panier: "
  ++ Str.chr Str.dquote ++ name ++ Str.chr Str.dquote.

Definition remove_from_cart (name : string) (quantity : Z) : Run ToolResult :=
  let key := Str.toLowerCase (Str.trim name) in
  cart <- getCART ;;
  match JsMap.get key cart with
  | None => ret (failure (Text (notInCartMessage name)))
  | Some current =>
      let current :=
        CartLine.set_quantity current (CartLine.quantity current - quantity) in
      (if CartLine.quantity current <=? 0
       then putCART (JsMap.delete key cart)
       else putCART (JsMap.set key current cart)) ;;
      totals <- cartTotals ;;
      ret (success (Text ("Retiré: " ++ Str.of_Z quantity ++ " × " ++ CartLine.name current)))
  end.

Definition get_cart : Run ToolResult :=
  totals <- cartTotals ;;
  ret (success (CartJson totals)).

(** *** The input schemas

    [registerTool] hands the arguments to the handler only after the
    declared schema accepted them; [None] is a refused argument. *)
Module Schema.

(** [z.string()] *)
Definition str (v : Js.Value) : option string :=
  match v with
  | Js.Str s => Some s
  | _ => None
  end.

(** [z.number().int().min(1).default(1)] *)
Definition quantity (v : Js.Value) : option Z :=
  match v with
  | Js.Undefined => Some 1
  | Js.Number x =>
      match Num.integer_value x with
      | Some q => if q <? 1 then None else Some q
      | None => None
      end
  | _ => None
  end.

(** [z.number().optional()] *)
Definition optNumber (v : Js.Value) : option (option float) :=
  match v with
  | Js.Undefined => Some None
  | Js.Number x => if Num.isNaN x then None else Some (Some x)
  | _ => None
  end.

Fixpoint strings (l : list Js.Value) : option (list string) :=
  match l with
  | [] => Some []
  | v :: r =>
      match str v, strings r with
      | Some s, Some ss => Some (s :: ss)
      | _, _ => None
      end
  end.

(** [z.array(z.string()).optional()] *)
Definition optStrings (v : Js.Value) : option (option (list string)) :=
  match v with
  | Js.Undefined => Some None
  | Js.Array elements => option_map Some (strings elements)
  | _ => None
  end.

End Schema.

(** A tool call as it arrives: the tool and its arguments, an absent
    argument being [undefined]. *)
Inductive Request : Type :=
| Call_list_pizzas (maxPrice excludeAllergens includeIngredients : Js.Value)
| Call_add_to_cart (name quantity : Js.Value)
| Call_remove_from_cart (name quantity : Js.Value)
| Call_get_cart.

(** The reply to a call: the schema refused the arguments and the handler
    did not run, or the handler's result. *)
Inductive Response : Type :=
| Invalid
| Handled (r : ToolResult).

Definition callTool (req : Request) : Run Response :=
  match req with
  | Call_list_pizzas maxPrice excludeAllergens includeIngredients =>
      match Schema.optNumber maxPrice, Schema.optStrings excludeAllergens,
            Schema.optStrings includeIngredients with
      | Some m, Some ex, Some inc => r <- list_pizzas m ex inc ;; ret (Handled r)
      | _, _, _ => ret Invalid
      end
  | Call_add_to_cart name quantity =>
      match Schema.str name, Schema.quantity quantity with
      | Some n, Some q => r <- add_to_cart n q ;; ret (Handled r)
      | _, _ => ret Invalid
      end
  | Call_remove_from_cart name quantity =>
      match Schema.str name, Schema.quantity quantity with
      | Some n, Some q => r <- remove_from_cart n q ;; ret (Handled r)
      | _, _ => ret Invalid
      end
  | Call_get_cart => r <- get_cart ;; ret (Handled r)
  end.

(** The server after a sequence of tool calls. *)
Definition serve (reqs : list Request) (s : Server) : Server :=
  fold_left (fun s req => execState (callTool req) s) reqs s.

(* ===================================================================== *)
(** ** The HTML cart view *)
(* ===================================================================== *)

Module Html.

(** The quotation mark inside the literal parts of the page. *)
Definition q : string := Str.chr Str.dquote.

Definition escapeHtml (s : string) : string :=
  Str.replaceAll Str.squote "&#39;"
    (Str.replaceAll Str.dquote "&quot;"
       (Str.replaceAll ">" "&gt;"
          (Str.replaceAll "<" "&lt;"
             (Str.replaceAll "&" "&amp;" s)))).

Definition emptyRow : string :=
  "<tr><td colspan=" ++ q ++ "4" ++ q ++ " style=" ++ q ++ "text-align:center;padding:16px;color:#666" ++ q ++ ">Panier vide</td></tr>".

(** The literal parts of a row, around its four interpolations. *)
Definition rowOpen : string :=
  "
      <tr>
        <td>".

Definition afterName : string :=
  "</td>
        <td style=" ++ q ++ "text-align:right" ++ q ++ ">".

Definition afterUnitPrice : string :=
  "</td>
        <td style=" ++ q ++ "text-align:right" ++ q ++ ">".

Definition afterQuantity : string :=
  "</td>
        <td style=" ++ q ++ "text-align:right" ++ q ++ ">".

Definition rowClose : string :=
  "</td>
      </tr>".

(** The literal parts of the page, around the rows and the subtotal. *)
Definition pageHead : string :=
  "<!doctype html>
<html lang=" ++ q ++ "fr" ++ q ++ ">
<head>
  <meta charset=" ++ q ++ "utf-8" ++ q ++ ">
  <title>Panier — mcp-js</title>
  <meta http-equiv=" ++ q ++ "refresh" ++ q ++ " content=" ++ q ++ "10" ++ q ++ "> <!-- auto-refresh toutes les 10s -->
  <meta name=" ++ q ++ "viewport" ++ q ++ " content=" ++ q ++ "width=device-width, initial-scale=1" ++ q ++ ">
  <style>
    :root { font-family: system-ui, -apple-system, Segoe UI, Roboto, Ubuntu, Cantarell, 'Helvetica Neue', Arial, 'Noto Sans', 'Apple Color Emoji','Segoe UI Emoji'; }
    body { margin: 24px; color: #111; }
    h1 { font-size: 20px; margin: 0 0 12px; }
    .card { max-width: 800px; border: 1px solid #e5e7eb; border-radius: 12px; padding: 16px; box-shadow: 0 1px 2px rgba(0,0,0,.04); background: #fff; }
    table { width: 100%; border-collapse: collapse; }
    th, td { padding: 8px 10px; border-bottom: 1px solid #eee; }
    th { text-align: left; font-weight: 600; color: #374151; }
    tfoot td { font-weight: 700; }
    .muted { color: #6b7280; font-size: 12px; margin-top: 8px; }
    code { background: #f3f4f6; padding: 2px 6px; border-radius: 6px; }
  </style>
</head>
<body>
  <div class=" ++ q ++ "card" ++ q ++ ">
    <h1>🛒 Panier</h1>
    <table>
      <thead>
        <tr>
          <th>Pizza</th>
          <th style=" ++ q ++ "text-align:right" ++ q ++ ">Prix unitaire</th>
          <th style=" ++ q ++ "text-align:right" ++ q ++ ">Qté</th>
          <th style=" ++ q ++ "text-align:right" ++ q ++ ">Total ligne</th>
        </tr>
      </thead>
      <tbody>
        ".

Definition pageMid : string :=
  "
      </tbody>
      <tfoot>
        <tr>
          <td colspan=" ++ q ++ "3" ++ q ++ " style=" ++ q ++ "text-align:right" ++ q ++ ">Sous-total</td>
          <td style=" ++ q ++ "text-align:right" ++ q ++ ">".

Definition pageTail : string :=
  "</td>
        </tr>
      </tfoot>
    </table>
  </div>
</body>
</html>".

Section Render.
Context `{Builtins}.

Definition renderRow (currency : string) (it : Item.t) : string :=
  rowOpen ++ escapeHtml (Item.name it)
  ++ afterName ++ toFixed2 (Item.unitPrice it) ++ " " ++ currency
  ++ afterUnitPrice ++ Str.of_Z (Item.quantity it)
  ++ afterQuantity ++ toFixed2 (Item.lineTotal it) ++ " " ++ currency
  ++ rowClose.

Definition renderPage (totals : Totals.t) : string :=
  let rows :=
    match Totals.items totals with
    | [] => emptyRow
    | items => Str.concat (map (renderRow (Totals.currency totals)) items)
    end in
  pageHead ++ rows ++ pageMid
  ++ toFixed2 (Totals.subtotal totals) ++ " " ++ Totals.currency totals
  ++ pageTail.

Definition renderCartHtml : Run string :=
  totals <- cartTotals ;;
  ret (renderPage totals).

(** What [res.end] is given.  The JSON body is represented by the value
    that [JSON.stringify] serialises. *)
Inductive Body : Type :=
| HtmlBody (html : string)
| JsonBody (cart : Totals.t)
| PlainBody (text : string).

Record HttpResponse : Type := {
  status : nat;
  contentType : string;
  body : Body
}.

(** The callback of [http.createServer], on the method and the URL of the
    request. *)
Definition httpHandler (method url : string) : Run HttpResponse :=
  if String.eqb method "GET" && (String.eqb url "/" || String.eqb url "/cart") then
    html <- renderCartHtml ;;
    ret {| status := 200; contentType := "text/html; charset=utf-8";
           body := HtmlBody html |}
  else if String.eqb method "GET" && String.eqb url "/api/cart.json" then
    totals <- cartTotals ;;
    ret {| status := 200; contentType := "application/json; charset=utf-8";
           body := JsonBody totals |}
  else if String.eqb method "GET" && String.eqb url "/health" then
    ret {| status := 200; contentType := "text/plain; charset=utf-8";
           body := PlainBody "ok" |}
  else
    ret {| status := 404; contentType := "text/plain; charset=utf-8";
           body := PlainBody "Not found" |}.

End Render.

End Html.

(* ===================================================================== *)
(** ** A reference instance of the built-ins *)
(* ===================================================================== *)

(** [Number(s)], [String(x)] and [x.toFixed(2)] computed with exact integer
    arithmetic on the binary64 value, for running the model on concrete
    inputs. *)
Module Reference.

Definition digit (c : ascii) : option Z :=
  let n := nat_of_ascii c in
  if ((48 <=? n) && (n <=? 57))%nat then Some (Z.of_nat n - 48) else None.

(** The digit of [c] in a base up to 16. *)
Definition digitIn (base : Z) (c : ascii) : option Z :=
  let n := Z.of_nat (nat_of_ascii (Str.lower_char c)) in
  let v := if (48 <=? n) && (n <=? 57) then n - 48
           else if (97 <=? n) && (n <=? 102) then n - 87
           else base in
  if v <? base then Some v else None.

(** Reads the longest prefix of digits: its value, its length, the rest. *)
Fixpoint readDigits (acc cnt : Z) (s : string) : Z * Z * string :=
  match s with
  | EmptyString => (acc, cnt, s)
  | String c r =>
      match digit c with
      | Some d => readDigits (10 * acc + d) (cnt + 1) r
      | None => (acc, cnt, s)
      end
  end.

(** A numeral of [base] that fills the whole string. *)
Fixpoint readBase (base acc : Z) (s : string) : option Z :=
  match s with
  | EmptyString => Some acc
  | String c r =>
      match digitIn base c with
      | Some d => readBase base (base * acc + d) r
      | None => None
      end
  end.

(** The binary64 value nearest to [(-1)^neg * m * 10^k]. *)
Definition decimal (neg : bool) (m k : Z) : float :=
  match m with
  | Z.pos p =>
      if 0 <=? k then SF2Prim (binary_normalize prec emax (if neg then - (m * 10 ^ k) else m * 10 ^ k) 0 false)
      else SF2Prim (SFdiv prec emax (S754_finite neg p 0)
                      (S754_finite false (Z.to_pos (10 ^ (- k))) 0))
  | _ => if neg then (-0)%float else 0%float
  end.

(** The exponent part [e±ddd], or nothing, up to the end of the string. *)
Definition readExponent (s : string) : option Z :=
  match s with
  | EmptyString => Some 0
  | String c r =>
      if Ascii.eqb (Str.lower_char c) "e" then
        let '(neg, r) :=
          match r with
          | String "-" r' => (true, r')
          | String "+" r' => (false, r')
          | _ => (false, r)
          end in
        match readDigits 0 0 r with
        | (v, cnt, EmptyString) =>
            if 0 <? cnt then Some (if neg then - v else v) else None
        | _ => None
        end
      else None
  end.

(** [StrUnsignedDecimalLiteral] *)
Definition readDecimal (neg : bool) (s : string) : float :=
  if String.eqb s "Infinity" then (if neg then neg_infinity else infinity)
  else
    let '(ip, nip, r) := readDigits 0 0 s in
    let '(fp, nfp, r) :=
      match r with
      | String "." r' => readDigits 0 0 r'
      | _ => (0, 0, r)
      end in
    if 0 <? nip + nfp then
      match readExponent r with
      | Some e => decimal neg (ip * 10 ^ nfp + fp) (e - nfp)
      | None => nan
      end
    else nan.

(** [Number(s)]: the [StringNumericLiteral] grammar. *)
Definition StringToNumber (s : string) : float :=
  match Str.trim s with
  | EmptyString => 0%float
  | String "-" r => readDecimal true r
  | String "+" r => readDecimal false r
  | String "0" (String c r) as t =>
      let base := match Str.lower_char c with
                  | "x"%char => 16 | "o"%char => 8 | "b"%char => 2 | _ => 0
                  end in
      if base =? 0 then readDecimal false t
      else match r, readBase base 0 r with
           | String _ _, Some v => Num.of_Z v
           | _, _ => nan
           end
  | t => readDecimal false t
  end.


(** [n] with [10^(n-1) <= num/den < 10^n], searched downwards from an upper
    bound [n0] in at most [fuel] steps. *)
Fixpoint magnitude (fuel : nat) (num den n0 : Z) : Z :=
  match fuel with
  | O => n0
  | S fuel' =>
      let below := if 0 <? n0 then 10 ^ (n0 - 1) * den <=? num
                   else den <=? num * 10 ^ (1 - n0) in
      if below then n0 else magnitude fuel' num den (n0 - 1)
  end.

(** The [k]-digit numeral [s] with [s * 10^(n-k)] reading back as [x], the
    one nearest to [num/den] when there are two; with the exponent [n]. *)
Definition candidate (x : float) (num den n k : Z) : option (Z * Z) :=
  let sh := k - n in
  let N := if 0 <=? sh then num * 10 ^ sh else num in
  let D := if 0 <=? sh then den else den * 10 ^ (- sh) in
  let lo := N / D in
  let hi := lo + 1 in
  let ok s := (10 ^ (k - 1) <=? s) && (s <=? 10 ^ k)
              && PrimFloat.eqb (decimal false s (n - k)) x in
  let norm s := if s =? 10 ^ k then (10 ^ (k - 1), n + 1) else (s, n) in
  match ok lo, ok hi with
  | true, true =>
      Some (norm (if 2 * N <? (2 * lo + 1) * D then lo
                  else if (2 * lo + 1) * D <? 2 * N then hi
                  else if Z.even lo then lo else hi))
  | true, false => Some (norm lo)
  | false, true => Some (norm hi)
  | false, false => None
  end.

Fixpoint shortest (fuel : nat) (x : float) (num den n k : Z) : Z * Z :=
  match fuel with
  | O => (0, n)
  | S fuel' =>
      match candidate x num den n k with
      | Some r => r
      | None => shortest fuel' x num den n (k + 1)
      end
  end.

Definition zeros (n : Z) : string := String.concat "" (repeat "0" (Z.to_nat n)).

(** The digits [ds] of a positive number with decimal exponent [n], laid
    out as [Number::toString] does. *)
Definition layout (ds : string) (n : Z) : string :=
  let k := Z.of_nat (String.length ds) in
  if (k <=? n) && (n <=? 21) then ds ++ zeros (n - k)
  else if (0 <? n) && (n <=? 21) then
    substring 0 (Z.to_nat n) ds ++ "." ++ substring (Z.to_nat n) (Z.to_nat (k - n)) ds
  else if (-6 <? n) && (n <=? 0) then "0." ++ zeros (- n) ++ ds
  else
    let e := n - 1 in
    let sign := if e <? 0 then "-" else "+" in
    (if k =? 1 then ds
     else substring 0 1 ds ++ "." ++ substring 1 (Z.to_nat (k - 1)) ds)
    ++ "e" ++ sign ++ Str.of_Z (Z.abs e).

(** [String(x)] *)
Definition NumberToString (x : float) : string :=
  match Prim2SF x with
  | S754_nan => "NaN"
  | S754_zero _ => "0"
  | S754_infinity s => if s then "-Infinity" else "Infinity"
  | S754_finite s m e =>
      let num := if 0 <=? e then Z.pos m * 2 ^ e else Z.pos m in
      let den := if 0 <=? e then 1 else 2 ^ (- e) in
      let n := magnitude 700 num den 310 in
      let '(digits, n) := shortest 17 (abs x) num den n 1 in
      (if s then "-" else "") ++ layout (Str.of_Z digits) n
  end.

(** [x.toFixed(2)] *)
Definition toFixed2 (x : float) : string :=
  match Prim2SF x with
  | S754_nan => "NaN"
  | S754_zero _ => "0.00"
  | S754_infinity _ => NumberToString x
  | S754_finite s m e =>
      if (abs x <? 1e21)%float then
        let num := if 0 <=? e then Z.pos m * 2 ^ e else Z.pos m in
        let den := if 0 <=? e then 1 else 2 ^ (- e) in
        (* the integer nearest to 100 * |x|, the larger one on a tie *)
        let n := (2 * 100 * num + den) / (2 * den) in
        (if s then "-" else "") ++ Str.of_Z (n / 100) ++ "."
        ++ (if n mod 100 <? 10 then "0" else "") ++ Str.of_Z (n mod 100)
      else NumberToString x
  end.

End Reference.

(* ===================================================================== *)
(** * Properties *)
(* ===================================================================== *)

(** ** Strings without markup characters *)

(** No character of [s] is one of the five that [escapeHtml] replaces. *)
Definition plain (s : string) : Prop :=
  forall c, In c (Str.chars s) -> Str.is_markup c = false.

Lemma chars_app (a b : string) : Str.chars (a ++ b) = (Str.chars a ++ Str.chars b)%list.
Proof.
  induction a as [|c a IH]; simpl; [reflexivity|].
  unfold Str.chars in *. simpl. now rewrite IH.
Qed.

Lemma plain_app (a b : string) : plain a -> plain b -> plain (a ++ b).
Proof.
  intros Ha Hb c Hc. rewrite chars_app in Hc.
  apply in_app_or in Hc. destruct Hc; auto.
Qed.

Lemma plain_cons (c : ascii) (s : string) :
  Str.is_markup c = false -> plain s -> plain (String c s).
Proof.
  intros Hc Hs d [<-|Hd]; auto.
Qed.

Lemma plain_nil : plain "".
Proof. intros c []. Qed.

Lemma plain_tail (c : ascii) (s : string) : plain (String c s) -> plain s.
Proof. intros Hs d Hd. apply Hs. now right. Qed.

Lemma plain_substring (n m : nat) (s : string) : plain s -> plain (substring n m s).
Proof.
  revert n m. induction s as [|c s IH]; intros n m Hs.
  - destruct n, m; simpl; apply plain_nil.
  - destruct n as [|n]; destruct m as [|m]; simpl.
    + apply plain_nil.
    + apply plain_cons; [apply Hs; now left|]. apply IH. eapply plain_tail, Hs.
    + apply IH. eapply plain_tail, Hs.
    + apply IH. eapply plain_tail, Hs.
Qed.

Lemma plain_uint (d : Decimal.uint) : plain (NilEmpty.string_of_uint d).
Proof.
  induction d; simpl; try apply plain_nil; (apply plain_cons; [reflexivity|assumption]).
Qed.

Lemma plain_numeral (d : Decimal.uint) : plain (NilZero.string_of_uint d).
Proof.
  destruct d; [apply plain_cons; [reflexivity|apply plain_nil] | apply plain_uint ..].
Qed.

Lemma plain_of_Z (z : Z) : plain (Str.of_Z z).
Proof.
  unfold Str.of_Z, NilZero.string_of_int.
  destruct (Z.to_int z) as [d|d];
    [|apply plain_cons; [reflexivity|]]; apply plain_numeral.
Qed.

Lemma plain_of_nat (n : nat) : plain (Str.of_nat n).
Proof. apply plain_numeral. Qed.

Lemma plain_zeros (n : Z) : plain (Reference.zeros n).
Proof.
  unfold Reference.zeros. induction (Z.to_nat n) as [|k IH]; simpl.
  - apply plain_nil.
  - destruct (repeat "0" k) eqn:E; simpl in *.
    + apply plain_cons; [reflexivity|apply plain_nil].
    + apply plain_cons; [reflexivity|]. exact IH.
Qed.

(** Closes a goal [plain s] for a string built by appending literals,
    numerals and their substrings. *)
Ltac plain_tac :=
  repeat first
    [ apply plain_nil
    | apply plain_of_Z
    | apply plain_of_nat
    | apply plain_zeros
    | assumption
    | apply plain_app
    | apply plain_substring
    | apply plain_cons; [reflexivity|]
    | match goal with
      | |- plain (if ?b then _ else _) => destruct b
      end ].

Lemma plain_layout (ds : string) (n : Z) : plain ds -> plain (Reference.layout ds n).
Proof.
  intros Hds. unfold Reference.layout. cbv zeta.
  repeat match goal with
         | |- plain (if ?b then _ else _) => destruct b
         end; plain_tac.
Qed.

Lemma plain_NumberToString (x : float) : plain (Reference.NumberToString x).
Proof.
  unfold Reference.NumberToString.
  destruct (Prim2SF x) as [s|s| |s m e]; try destruct s; plain_tac;
    match goal with
    | |- plain (let '(_, _) := ?p in _) => destruct p
    end; plain_tac; apply plain_layout; plain_tac.
Qed.

Lemma plain_toFixed2 (x : float) : plain (Reference.toFixed2 x).
Proof.
  unfold Reference.toFixed2.
  destruct (Prim2SF x) as [s|s| |s m e]; plain_tac;
    try apply plain_NumberToString.
Qed.

(** The reference built-ins. *)
Definition reference : Builtins :=
  {| StringToNumber := Reference.StringToNumber;
     NumberToString := Reference.NumberToString;
     toFixed2 := Reference.toFixed2;
     toFixed2_plain := plain_toFixed2 |}.

(* ===================================================================== *)
(** ** The cart snapshot *)
(* ===================================================================== *)

(** The subtotal as the specification words it: the sum over the lines of
    the unrounded [unitPrice * quantity], rounded once at the end. *)
Definition unroundedSubtotal (cart : Cart) : float :=
  Num.round2
    (fold_left
       (fun s line =>
          (s + CartLine.unitPrice line * Num.of_Z (CartLine.quantity line))%float)
       (JsMap.values cart) 0%float).

(** The subtotal as the sum of the displayed line totals. *)
Definition displayedSubtotal (cart : Cart) : float :=
  Num.round2
    (fold_left
       (fun s line =>
          (s + Num.round2 (CartLine.unitPrice line
                           * Num.of_Z (CartLine.quantity line)))%float)
       (JsMap.values cart) 0%float).

(** A catalog with prices below the cent, and the calls that fill a cart
    from it. *)
Definition cheeseCatalog : list Pizza.t :=
  [ {| Pizza.name := "Brie"; Pizza.price := 2.125%float;
       Pizza.ingredients := ["brie"]; Pizza.allergens := ["milk"] |};
    {| Pizza.name := "Comte"; Pizza.price := 2.125%float;
       Pizza.ingredients := ["comte"]; Pizza.allergens := ["milk"] |} ].

Definition cheeseOrder : list Request :=
  [ Call_add_to_cart (Js.Str "Brie") Js.Undefined;
    Call_add_to_cart (Js.Str "comte") (Js.Number 1%float) ].

Lemma cartTotals_run (s : Server) :
  runState cartTotals s =
    ({| Totals.items := map toItem (JsMap.values (CART s));
        Totals.subtotal :=
          Num.round2 (fold_left (fun a it => (a + Item.lineTotal it)%float)
                        (map toItem (JsMap.values (CART s))) 0%float);
        Totals.currency := "EUR" |}, s).
Proof. reflexivity. Qed.

Lemma fold_left_map {A B C : Type} (f : A -> C -> A) (g : B -> C) (l : list B) (a : A) :
  fold_left f (map g l) a = fold_left (fun x y => f x (g y)) l a.
Proof.
  revert a. induction l as [|b l IH]; intros a; simpl; [reflexivity|apply IH].
Qed.

(** C1 (as the code has it): every displayed [lineTotal] is
    [round2(unitPrice * quantity)], and the subtotal is [round2] of the sum, in
    line order, of these already rounded line totals. *)
Theorem subtotal_sums_displayed_line_totals (s : Server) :
  let totals := evalState cartTotals s in
  Forall (fun it =>
            Item.lineTotal it
            = Num.round2 (Item.unitPrice it * Num.of_Z (Item.quantity it))%float)
    (Totals.items totals)
  /\ Totals.subtotal totals
     = Num.round2 (fold_left (fun a it => (a + Item.lineTotal it)%float)
                     (Totals.items totals) 0%float)
  /\ Totals.subtotal totals = displayedSubtotal (CART s).
Proof.
  unfold evalState. rewrite cartTotals_run. cbn [fst Totals.items Totals.subtotal].
  split; [|split].
  - apply Forall_forall. intros it Hit.
    apply in_map_iff in Hit. destruct Hit as [line [<- _]]. reflexivity.
  - reflexivity.
  - unfold displayedSubtotal. now rewrite fold_left_map.
Qed.

(** C1 (as stated) fails: two lines at 2.125 display 2.13 each and a
    subtotal of 4.26, where the sum of the unrounded products rounds to
    4.25. *)
Lemma subtotal_differs_from_unrounded_sum :
  let s := serve cheeseOrder (boot cheeseCatalog) in
  JsMap.keys (CART s) = ["brie"; "comte"]
  /\ map Item.lineTotal (Totals.items (evalState cartTotals s))
     = [2.13%float; 2.13%float]
  /\ Totals.subtotal (evalState cartTotals s) = 4.26%float
  /\ unroundedSubtotal (CART s) = 4.25%float
  /\ Totals.subtotal (evalState cartTotals s) <> unroundedSubtotal (CART s).
Proof.
  cbv zeta.
  assert (Hs : Totals.subtotal (evalState cartTotals (serve cheeseOrder (boot cheeseCatalog)))
               = 4.26%float) by (vm_compute; reflexivity).
  assert (Hu : unroundedSubtotal (CART (serve cheeseOrder (boot cheeseCatalog)))
               = 4.25%float) by (vm_compute; reflexivity).
  repeat split; try assumption; try (vm_compute; reflexivity).
  rewrite Hs, Hu. intros E.
  apply (f_equal (fun x => PrimFloat.eqb x 4.25%float)) in E.
  vm_compute in E. discriminate E.
Qed.

(* ===================================================================== *)
(** ** The handlers as state transformers *)
(* ===================================================================== *)

(** The line that [add_to_cart] stores for [pizza]. *)
Definition addedLine (pizza : Pizza.t) (quantity : Z) (cart : Cart) : CartLine.t :=
  match JsMap.get (Str.toLowerCase (Pizza.name pizza)) cart with
  | Some line => CartLine.set_quantity line (CartLine.quantity line + quantity)
  | None => {| CartLine.name := Pizza.name pizza;
               CartLine.unitPrice := Pizza.price pizza;
               CartLine.quantity := 0 + quantity |}
  end.

(** The pizza that [findPizzaByName] returns. *)
Definition lookupPizza (pizzas : list Pizza.t) (name : string) : option Pizza.t :=
  find (fun p => String.eqb (Str.toLowerCase (Pizza.name p))
                   (Str.toLowerCase (Str.trim name))) pizzas.

Lemma findPizzaByName_run (name : string) (s : Server) :
  runState (findPizzaByName name) s = (lookupPizza (PIZZAS s) name, s).
Proof. reflexivity. Qed.

Lemma add_to_cart_miss (name : string) (quantity : Z) (s : Server) :
  lookupPizza (PIZZAS s) name = None ->
  runState (add_to_cart name quantity) s = (failure (Text (notFoundMessage name)), s).
Proof.
  intros Hmiss. unfold add_to_cart. cbn.
  fold (lookupPizza (PIZZAS s) name). rewrite Hmiss. reflexivity.
Qed.

Lemma add_to_cart_hit (name : string) (quantity : Z) (s : Server) (pizza : Pizza.t) :
  lookupPizza (PIZZAS s) name = Some pizza ->
  runState (add_to_cart name quantity) s
  = (success (Text ("Ajouté: " ++ Str.of_Z quantity ++ " × " ++ Pizza.name pizza)),
     {| PIZZAS := PIZZAS s;
        CART := JsMap.set (Str.toLowerCase (Pizza.name pizza))
                  (addedLine pizza quantity (CART s)) (CART s) |}).
Proof.
  intros Hhit. unfold add_to_cart, addedLine. cbn.
  fold (lookupPizza (PIZZAS s) name). rewrite Hhit. cbn.
  destruct (JsMap.get (Str.toLowerCase (Pizza.name pizza)) (CART s)); reflexivity.
Qed.

Lemma remove_from_cart_miss (name : string) (quantity : Z) (s : Server) :
  JsMap.get (Str.toLowerCase (Str.trim name)) (CART s) = None ->
  runState (remove_from_cart name quantity) s
  = (failure (Text (notInCartMessage name)), s).
Proof.
  intros Hmiss. unfold remove_from_cart. cbn. rewrite Hmiss. reflexivity.
Qed.

Lemma remove_from_cart_hit (name : string) (quantity : Z) (s : Server) (line : CartLine.t) :
  JsMap.get (Str.toLowerCase (Str.trim name)) (CART s) = Some line ->
  runState (remove_from_cart name quantity) s
  = (success (Text ("Retiré: " ++ Str.of_Z quantity ++ " × " ++ CartLine.name line)),
     {| PIZZAS := PIZZAS s;
        CART :=
          if CartLine.quantity line - quantity <=? 0
          then JsMap.delete (Str.toLowerCase (Str.trim name)) (CART s)
          else JsMap.set (Str.toLowerCase (Str.trim name))
                 (CartLine.set_quantity line (CartLine.quantity line - quantity))
                 (CART s) |}).
Proof.
  intros Hhit. unfold remove_from_cart. cbn. rewrite Hhit. cbn.
  destruct (CartLine.quantity line - quantity <=? 0); reflexivity.
Qed.

(* ===================================================================== *)
(** ** The [Map] operations *)
(* ===================================================================== *)

Section JsMapFacts.
Context {V : Type}.
Implicit Types (m : JsMap.t V) (k : string) (v : V).

Lemma get_set_same k v m : JsMap.get k (JsMap.set k v m) = Some v.
Proof.
  induction m as [|[k' v'] m IH]; simpl.
  - now rewrite String.eqb_refl.
  - destruct (String.eqb k' k) eqn:E; simpl.
    + now rewrite String.eqb_refl.
    + now rewrite E.
Qed.


Lemma get_delete_same k m : JsMap.get k (JsMap.delete k m) = None.
Proof.
  induction m as [|[k' v'] m IH]; simpl; [reflexivity|].
  destruct (String.eqb k' k) eqn:E; simpl; [exact IH|now rewrite E].
Qed.


Lemma get_In k v m : JsMap.get k m = Some v -> In (k, v) m.
Proof.
  induction m as [|[k' v'] m IH]; simpl; [discriminate|].
  destruct (String.eqb_spec k' k) as [->|Hk].
  - intros [= ->]. now left.
  - intros Hg. right. now apply IH.
Qed.

Lemma get_None_notin k m : JsMap.get k m = None <-> ~ In k (JsMap.keys m).
Proof.
  induction m as [|[k' v'] m IH]; simpl.
  - split; [intros _ []|reflexivity].
  - destruct (String.eqb_spec k' k) as [->|Hk].
    + split; [discriminate|]. intros Hn. exfalso. apply Hn. now left.
    + rewrite IH. split.
      * intros Hn [Hk'|Hin]; [congruence|auto].
      * intros Hn Hin. apply Hn. now right.
Qed.

Lemma set_absent k v m : JsMap.get k m = None -> JsMap.set k v m = (m ++ [(k, v)])%list.
Proof.
  induction m as [|[k' v'] m IH]; simpl; [reflexivity|].
  destruct (String.eqb k' k); [discriminate|].
  intros Hg. now rewrite IH.
Qed.

Lemma keys_set_present k v v0 m :
  JsMap.get k m = Some v0 -> JsMap.keys (JsMap.set k v m) = JsMap.keys m.
Proof.
  unfold JsMap.keys.
  induction m as [|[k' v'] m IH]; simpl; [discriminate|].
  destruct (String.eqb_spec k' k) as [->|Hk]; simpl; [reflexivity|].
  intros Hg. now rewrite IH.
Qed.

Lemma keys_delete k m :
  JsMap.keys (JsMap.delete k m)
  = filter (fun k' => negb (String.eqb k' k)) (JsMap.keys m).
Proof.
  unfold JsMap.keys.
  induction m as [|[k' v'] m IH]; simpl; [reflexivity|].
  destruct (String.eqb k' k); simpl; [exact IH|].
  now rewrite IH.
Qed.

Lemma Forall_set (P : string * V -> Prop) k v m :
  Forall P m -> P (k, v) -> Forall P (JsMap.set k v m).
Proof.
  intros Hm Hv. induction Hm as [|[k' v'] m Hx Hm IH]; simpl.
  - now constructor.
  - destruct (String.eqb k' k); constructor; assumption.
Qed.

Lemma Forall_delete (P : string * V -> Prop) k m :
  Forall P m -> Forall P (JsMap.delete k m).
Proof.
  intros Hm. induction Hm as [|[k' v'] m Hx Hm IH]; simpl.
  - constructor.
  - destruct (String.eqb k' k); [assumption|now constructor].
Qed.

Lemma wf_set k v m : JsMap.wf m -> JsMap.wf (JsMap.set k v m).
Proof.
  unfold JsMap.wf. intros Hwf.
  destruct (JsMap.get k m) as [v0|] eqn:Hg.
  - now rewrite (keys_set_present _ _ _ _ Hg).
  - rewrite (set_absent _ _ _ Hg). unfold JsMap.keys. rewrite map_app. simpl.
    apply NoDup_app.
    + exact Hwf.
    + constructor; [intros []|constructor].
    + intros x Hx [<-|[]]. now apply get_None_notin in Hg.
Qed.

Lemma wf_delete k m : JsMap.wf m -> JsMap.wf (JsMap.delete k m).
Proof.
  unfold JsMap.wf. rewrite keys_delete. apply NoDup_filter.
Qed.



End JsMapFacts.

(* ===================================================================== *)
(** ** Quantities stay positive *)
(* ===================================================================== *)

(** Every line of the cart has a quantity above zero. *)
Definition positive (cart : Cart) : Prop :=
  Forall (fun entry => 0 < CartLine.quantity (snd entry)) cart.

Lemma quantity_accepted (v : Js.Value) (q : Z) : Schema.quantity v = Some q -> 1 <= q.
Proof.
  destruct v; simpl; try discriminate.
  - intros [= <-]. lia.
  - destruct (Num.integer_value x) as [n|]; [|discriminate].
    destruct (Z.ltb_spec n 1); [discriminate|].
    intros [= <-]. assumption.
Qed.

Lemma add_to_cart_positive (name : string) (quantity : Z) (s : Server) :
  1 <= quantity -> positive (CART s) ->
  positive (CART (execState (add_to_cart name quantity) s)).
Proof.
  intros Hq Hpos. unfold execState.
  destruct (lookupPizza (PIZZAS s) name) as [pizza|] eqn:Hfind.
  - rewrite (add_to_cart_hit _ _ _ _ Hfind). simpl.
    apply Forall_set; [exact Hpos|]. simpl. unfold addedLine.
    destruct (JsMap.get (Str.toLowerCase (Pizza.name pizza)) (CART s)) as [line|] eqn:Hget.
    + apply get_In in Hget.
      unfold positive in Hpos. rewrite Forall_forall in Hpos.
      specialize (Hpos _ Hget). simpl in *. lia.
    + simpl. lia.
  - rewrite (add_to_cart_miss _ _ _ Hfind). exact Hpos.
Qed.

Lemma remove_from_cart_positive (name : string) (quantity : Z) (s : Server) :
  positive (CART s) ->
  positive (CART (execState (remove_from_cart name quantity) s)).
Proof.
  intros Hpos. unfold execState.
  destruct (JsMap.get (Str.toLowerCase (Str.trim name)) (CART s)) as [line|] eqn:Hget.
  - rewrite (remove_from_cart_hit _ _ _ _ Hget). simpl.
    destruct (Z.leb_spec (CartLine.quantity line - quantity) 0).
    + now apply Forall_delete.
    + apply Forall_set; [exact Hpos|]. simpl. assumption.
  - rewrite (remove_from_cart_miss _ _ _ Hget). exact Hpos.
Qed.

Lemma execState_handled (c : Run ToolResult) (s : Server) :
  execState (r <- c ;; ret (Handled r)) s = execState c s.
Proof.
  unfold execState. cbn [bind ret Monad_state runState].
  destruct (runState c s). reflexivity.
Qed.

Lemma callTool_positive (req : Request) (s : Server) :
  positive (CART s) -> positive (CART (execState (callTool req) s)).
Proof.
  intros Hpos. destruct req as [m ex inc|name quantity|name quantity|]; unfold callTool.
  - destruct (Schema.optNumber m), (Schema.optStrings ex), (Schema.optStrings inc);
      exact Hpos.
  - destruct (Schema.str name) as [n|]; [|exact Hpos].
    destruct (Schema.quantity quantity) as [q|] eqn:Hq; [|exact Hpos].
    apply quantity_accepted in Hq.
    rewrite execState_handled. now apply add_to_cart_positive.
  - destruct (Schema.str name) as [n|]; [|exact Hpos].
    destruct (Schema.quantity quantity) as [q|]; [|exact Hpos].
    rewrite execState_handled. now apply remove_from_cart_positive.
  - exact Hpos.
Qed.

Lemma serve_positive (reqs : list Request) (s : Server) :
  positive (CART s) -> positive (CART (serve reqs s)).
Proof.
  revert s. induction reqs as [|req reqs IH]; intros s Hpos; simpl.
  - exact Hpos.
  - apply IH. now apply callTool_positive.
Qed.

(** C2: whatever the sequence of tool calls from the empty cart, no line of
    the cart has a quantity of zero or less; and [remove_from_cart] deletes
    the line of its key when the decrement brings the quantity to zero or
    below, and stores the decremented line otherwise. *)
Theorem cart_quantities_stay_positive :
  (forall (pizzas : list Pizza.t) (reqs : list Request),
      Forall (fun entry => 0 < CartLine.quantity (snd entry))
        (CART (serve reqs (boot pizzas))))
  /\ (forall (s : Server) (name : string) (quantity : Z),
         let key := Str.toLowerCase (Str.trim name) in
         JsMap.get key (CART (execState (remove_from_cart name quantity) s))
         = match JsMap.get key (CART s) with
           | Some line =>
               if CartLine.quantity line - quantity <=? 0 then None
               else Some (CartLine.set_quantity line (CartLine.quantity line - quantity))
           | None => None
           end).
Proof.
  split.
  - intros pizzas reqs. apply serve_positive. constructor.
  - intros s name quantity key. unfold execState. subst key.
    destruct (JsMap.get (Str.toLowerCase (Str.trim name)) (CART s)) as [line|] eqn:Hget.
    + rewrite (remove_from_cart_hit _ _ _ _ Hget). simpl.
      destruct (CartLine.quantity line - quantity <=? 0).
      * apply get_delete_same.
      * apply get_set_same.
    + rewrite (remove_from_cart_miss _ _ _ Hget). exact Hget.
Qed.

(* ===================================================================== *)
(** ** Adding the same pizza twice *)
(* ===================================================================== *)

(** The catalog of the specification's examples. *)
Definition menu : list Pizza.t :=
  [ {| Pizza.name := "BBQ Chicken"; Pizza.price := 12%float;
       Pizza.ingredients := ["tomato"; "chicken"; "onion"];
       Pizza.allergens := ["gluten"; "milk"] |};
    {| Pizza.name := "Margherita"; Pizza.price := 8%float;
       Pizza.ingredients := ["tomato"; "mozzarella"; "basil"];
       Pizza.allergens := ["gluten"; "milk"] |} ].

(** *** A catalog pizza resolves under its own name *)

Lemma trimEnd_idempotent (s : string) : Str.trimEnd (Str.trimEnd s) = Str.trimEnd s.
Proof.
  induction s as [|c s IH]; [reflexivity|].
  cbn [Str.trimEnd]. destruct (Str.trimEnd s) as [|d r] eqn:E.
  - destruct (Str.is_space c) eqn:Hc; [reflexivity|].
    cbn. now rewrite Hc.
  - cbn [Str.trimEnd] in IH |- *. now rewrite IH.
Qed.

(** A string that does not start with white space. *)
Definition headed (s : string) : Prop :=
  match s with
  | EmptyString => True
  | String c _ => Str.is_space c = false
  end.

Lemma trimStart_headed (s : string) : headed (Str.trimStart s).
Proof.
  induction s as [|c s IH]; simpl; [exact I|].
  destruct (Str.is_space c) eqn:Hc; [exact IH|exact Hc].
Qed.

Lemma trimStart_of_headed (s : string) : headed s -> Str.trimStart s = s.
Proof. destruct s as [|c s]; simpl; [reflexivity|]. now intros ->. Qed.

Lemma trimEnd_headed (s : string) : headed s -> headed (Str.trimEnd s).
Proof.
  destruct s as [|c s]; simpl; [exact id|]. intros Hc.
  destruct (Str.trimEnd s); [rewrite Hc|]; exact Hc.
Qed.

Lemma trim_idempotent (s : string) : Str.trim (Str.trim s) = Str.trim s.
Proof.
  unfold Str.trim.
  rewrite (trimStart_of_headed (Str.trimEnd (Str.trimStart s))).
  - apply trimEnd_idempotent.
  - apply trimEnd_headed, trimStart_headed.
Qed.

(** A pizza of the catalog whose name is trimmed, as [normalizePizza] leaves
    every name, is found under its own name, up to the case of the letters;
    it is the pizza itself when no other pizza has its name up to case. *)
Lemma catalog_pizza_resolves (pizzas : list Pizza.t) (p : Pizza.t) :
  In p pizzas -> Str.trim (Pizza.name p) = Pizza.name p ->
  exists found,
    lookupPizza pizzas (Pizza.name p) = Some found
    /\ In found pizzas
    /\ Str.toLowerCase (Pizza.name found) = Str.toLowerCase (Pizza.name p)
    /\ ((forall p', In p' pizzas ->
                    Str.toLowerCase (Pizza.name p') = Str.toLowerCase (Pizza.name p) ->
                    p' = p) -> found = p).
Proof.
  intros Hin Htrim. unfold lookupPizza. rewrite Htrim.
  destruct (find _ pizzas) as [found|] eqn:Hfind.
  - apply find_some in Hfind. destruct Hfind as [Hfound Heq].
    apply String.eqb_eq in Heq. exists found. repeat split; auto.
  - exfalso. apply (find_none _ _ Hfind) in Hin.
    now rewrite String.eqb_refl in Hin.
Qed.




(* ===================================================================== *)
(** ** Calls that name nothing *)
(* ===================================================================== *)




(** A cart with three Margheritas. *)
Definition threeMargheritas : Server :=
  serve [Call_add_to_cart (Js.Str "Margherita") (Js.Number 2%float);
         Call_add_to_cart (Js.Str " margherita ") Js.Undefined] (boot menu).


(* ===================================================================== *)
(** ** Reading the cart twice *)
(* ===================================================================== *)

Lemma get_cart_run (s : Server) :
  runState get_cart s = (success (CartJson (evalState cartTotals s)), s).
Proof. reflexivity. Qed.

Lemma items_follow_entries (s : Server) :
  map Item.name (Totals.items (evalState cartTotals s))
  = map (fun entry => CartLine.name (snd entry)) (CART s).
Proof.
  unfold evalState. rewrite cartTotals_run. cbn [fst Totals.items].
  unfold JsMap.values. rewrite !map_map. reflexivity.
Qed.

Lemma add_to_cart_keys (name : string) (quantity : Z) (s : Server) :
  JsMap.keys (CART (execState (add_to_cart name quantity) s))
  = match evalState (findPizzaByName name) s with
    | None => JsMap.keys (CART s)
    | Some pizza =>
        let key := Str.toLowerCase (Pizza.name pizza) in
        match JsMap.get key (CART s) with
        | Some _ => JsMap.keys (CART s)
        | None => (JsMap.keys (CART s) ++ [key])%list
        end
    end.
Proof.
  unfold evalState, execState. rewrite findPizzaByName_run. cbn [fst].
  destruct (lookupPizza (PIZZAS s) name) as [pizza|] eqn:Hfind.
  - rewrite (add_to_cart_hit _ _ _ _ Hfind). cbn [snd CART]. cbv zeta.
    destruct (JsMap.get (Str.toLowerCase (Pizza.name pizza)) (CART s)) as [line|] eqn:Hget.
    + now apply keys_set_present with (v0 := line).
    + rewrite (set_absent _ _ _ Hget). unfold JsMap.keys. now rewrite map_app.
  - now rewrite (add_to_cart_miss _ _ _ Hfind).
Qed.

(** C9: two [get_cart] calls in a row return the same reply (the same
    items in the same order, the same subtotal) and leave the state as it
    was; the items come in the order of the cart's entries; and
    [add_to_cart] keeps that order, a key that is new to the cart going
    last. *)
Theorem snapshot_twice_identical (s : Server) :
  (let (r1, s1) := runState get_cart s in
   let (r2, s2) := runState get_cart s1 in
   r1 = r2 /\ s1 = s /\ s2 = s)
  /\ Totals.items (evalState cartTotals (execState cartTotals s))
     = Totals.items (evalState cartTotals s)
  /\ Totals.subtotal (evalState cartTotals (execState cartTotals s))
     = Totals.subtotal (evalState cartTotals s)
  /\ map Item.name (Totals.items (evalState cartTotals s))
     = map (fun entry => CartLine.name (snd entry)) (CART s)
  /\ (forall name quantity,
         JsMap.keys (CART (execState (add_to_cart name quantity) s))
         = match evalState (findPizzaByName name) s with
           | None => JsMap.keys (CART s)
           | Some pizza =>
               let key := Str.toLowerCase (Pizza.name pizza) in
               match JsMap.get key (CART s) with
               | Some _ => JsMap.keys (CART s)
               | None => (JsMap.keys (CART s) ++ [key])%list
               end
           end).
Proof.
  split; [|split; [|split; [|split]]].
  - rewrite get_cart_run. rewrite get_cart_run. repeat split.
  - unfold execState. now rewrite cartTotals_run.
  - unfold execState. now rewrite cartTotals_run.
  - apply items_follow_entries.
  - intros name quantity. apply add_to_cart_keys.
Qed.

(* ===================================================================== *)
(** ** The quantity that reaches the cart *)
(* ===================================================================== *)






(* ===================================================================== *)
(** ** Listing the catalog *)
(* ===================================================================== *)

(** Equality of two strings up to case. *)
Definition sameText (a b : string) : Prop := Str.toLowerCase a = Str.toLowerCase b.

(** The pizzas that the filters of [list_pizzas] let through, in the words
    of the specification. *)
Definition selected (maxPrice : option float)
    (excludeAllergens includeIngredients : option (list string)) (p : Pizza.t) : Prop :=
  (forall m, maxPrice = Some m -> (Pizza.price p <=? m)%float = true)
  /\ (forall ex, excludeAllergens = Some ex ->
        forall a, In a (Pizza.allergens p) -> forall e, In e ex -> ~ sameText a e)
  /\ (forall inc, includeIngredients = Some inc ->
        forall i, In i inc -> exists g, In g (Pizza.ingredients p) /\ sameText g i).

(** The same as a test. *)
Definition selectedb (maxPrice : option float)
    (excludeAllergens includeIngredients : option (list string)) (p : Pizza.t) : bool :=
  match maxPrice with
  | Some m => (Pizza.price p <=? m)%float
  | None => true
  end
  && match excludeAllergens with
     | Some ex =>
         negb (existsb
                 (fun a => existsb (fun e => String.eqb (Str.toLowerCase a)
                                               (Str.toLowerCase e)) ex)
                 (Pizza.allergens p))
     | None => true
     end
  && match includeIngredients with
     | Some inc =>
         forallb
           (fun i => existsb (fun g => String.eqb (Str.toLowerCase g)
                                         (Str.toLowerCase i)) (Pizza.ingredients p))
           inc
     | None => true
     end.

Lemma filter_filter {A : Type} (f g : A -> bool) (l : list A) :
  filter g (filter f l) = filter (fun x => f x && g x) l.
Proof.
  induction l as [|x l IH]; simpl; [reflexivity|].
  destruct (f x); simpl; [destruct (g x)|]; now rewrite IH.
Qed.

Lemma filter_true {A : Type} (l : list A) : filter (fun _ => true) l = l.
Proof. induction l as [|x l IH]; simpl; [reflexivity|now rewrite IH]. Qed.

Lemma includes_lowered (l : list string) (x : string) :
  includes (map Str.toLowerCase l) x
  = existsb (fun e => String.eqb x (Str.toLowerCase e)) l.
Proof.
  unfold includes. induction l as [|e l IH]; simpl; [reflexivity|now rewrite IH].
Qed.

Lemma includes_lowered_sym (l : list string) (x : string) :
  includes (map Str.toLowerCase l) x
  = existsb (fun g => String.eqb (Str.toLowerCase g) x) l.
Proof.
  unfold includes. induction l as [|e l IH]; simpl; [reflexivity|].
  now rewrite IH, String.eqb_sym.
Qed.

Lemma selectedb_spec maxPrice excludeAllergens includeIngredients p :
  selectedb maxPrice excludeAllergens includeIngredients p = true
  <-> selected maxPrice excludeAllergens includeIngredients p.
Proof.
  unfold selectedb, selected. rewrite !andb_true_iff. split.
  - intros [[Hprice Hex] Hinc]. split; [|split].
    + intros m ->. exact Hprice.
    + intros ex -> a Ha e He Hsame.
      apply negb_true_iff in Hex.
      assert (Hyes : existsb
                       (fun a => existsb (fun e => String.eqb (Str.toLowerCase a)
                                                     (Str.toLowerCase e)) ex)
                       (Pizza.allergens p) = true).
      { apply existsb_exists. exists a. split; [exact Ha|].
        apply existsb_exists. exists e. split; [exact He|].
        now apply String.eqb_eq. }
      congruence.
    + intros inc -> i Hi.
      rewrite forallb_forall in Hinc. specialize (Hinc i Hi).
      apply existsb_exists in Hinc. destruct Hinc as [g [Hg Heq]].
      exists g. split; [exact Hg|]. now apply String.eqb_eq.
  - intros [Hprice [Hex Hinc]]. split; [split|].
    + destruct maxPrice as [m|]; [now apply Hprice|reflexivity].
    + destruct excludeAllergens as [ex|]; [|reflexivity].
      apply negb_true_iff. apply not_true_is_false. intros Hyes.
      apply existsb_exists in Hyes. destruct Hyes as [a [Ha Hyes]].
      apply existsb_exists in Hyes. destruct Hyes as [e [He Heq]].
      apply String.eqb_eq in Heq. exact (Hex ex eq_refl a Ha e He Heq).
    + destruct includeIngredients as [inc|]; [|reflexivity].
      apply forallb_forall. intros i Hi.
      destruct (Hinc inc eq_refl i Hi) as [g [Hg Hsame]].
      apply existsb_exists. exists g. split; [exact Hg|]. now apply String.eqb_eq.
Qed.

Lemma list_pizzas_run maxPrice excludeAllergens includeIngredients (s : Server) :
  runState (list_pizzas maxPrice excludeAllergens includeIngredients) s
  = (success (PizzasJson
                (filter (selectedb maxPrice excludeAllergens includeIngredients)
                   (PIZZAS s))), s).
Proof.
  unfold list_pizzas. cbn [bind ret gets get Monad_state MonadState_state runState].
  f_equal. f_equal. f_equal.
  assert (Hprice :
            match maxPrice with
            | Some m => filter (fun p => (Pizza.price p <=? m)%float) (PIZZAS s)
            | None => PIZZAS s
            end
            = filter (fun p => match maxPrice with
                               | Some m => (Pizza.price p <=? m)%float
                               | None => true
                               end) (PIZZAS s)).
  { destruct maxPrice; [reflexivity|now rewrite filter_true]. }
  rewrite Hprice. clear Hprice.
  set (l1 := filter _ (PIZZAS s)).
  set (fex := fun p : Pizza.t =>
                match excludeAllergens with
                | Some ex =>
                    negb (existsb
                            (fun a => existsb (fun e => String.eqb (Str.toLowerCase a)
                                                          (Str.toLowerCase e)) ex)
                            (Pizza.allergens p))
                | None => true
                end).
  assert (Hex :
            match given excludeAllergens with
            | Some ex0 =>
                filter (fun p =>
                          negb (existsb
                                  (fun a => includes (map Str.toLowerCase ex0)
                                              (Str.toLowerCase a))
                                  (Pizza.allergens p))) l1
            | None => l1
            end = filter fex l1).
  { subst fex. destruct excludeAllergens as [[|e ex]|]; cbn [given].
    - rewrite <- (filter_true l1) at 1. apply filter_ext. intros p.
      induction (Pizza.allergens p) as [|a l IH]; simpl; [reflexivity|exact IH].
    - apply filter_ext. intros p. f_equal.
      induction (Pizza.allergens p) as [|a l IH]; [reflexivity|].
      cbn [existsb]. rewrite IH. f_equal. apply includes_lowered.
    - now rewrite filter_true. }
  rewrite Hex. clear Hex.
  set (finc := fun p : Pizza.t =>
                 match includeIngredients with
                 | Some inc =>
                     forallb
                       (fun i => existsb (fun g => String.eqb (Str.toLowerCase g)
                                                     (Str.toLowerCase i))
                                   (Pizza.ingredients p)) inc
                 | None => true
                 end).
  assert (Hinc :
            match given includeIngredients with
            | Some inc0 =>
                filter (fun p =>
                          forallb (fun n => includes (map Str.toLowerCase (Pizza.ingredients p)) n)
                            (map Str.toLowerCase inc0)) (filter fex l1)
            | None => filter fex l1
            end = filter finc (filter fex l1)).
  { subst finc. destruct includeIngredients as [[|i inc]|]; cbn [given].
    - now rewrite filter_true.
    - apply filter_ext. intros p.
      induction (i :: inc) as [|n l IH]; [reflexivity|].
      cbn [map forallb]. rewrite IH. f_equal. apply includes_lowered_sym.
    - now rewrite filter_true. }
  rewrite Hinc. clear Hinc.
  subst l1. rewrite !filter_filter. apply filter_ext. intros p.
  unfold selectedb. subst fex finc. cbv beta. now rewrite andb_assoc.
Qed.


(** [list_pizzas({ maxPrice: 10 })] on the example catalog returns only
    Margherita, and [list_pizzas({ maxPrice: 5 })] returns the empty list as
    a success. *)
Example list_pizzas_maxPrice_10 :
  map Pizza.name
    (match content (evalState (list_pizzas (Some 10%float) None None) (boot menu)) with
     | PizzasJson pizzas => pizzas
     | _ => []
     end) = ["Margherita"]
  /\ evalState (list_pizzas (Some 5%float) None None) (boot menu)
     = {| content := PizzasJson []; isError := false |}.
Proof. split; reflexivity. Qed.

(* ===================================================================== *)
(** ** Escaping names in the HTML view *)
(* ===================================================================== *)

(** What [escapeHtml] puts in the place of one character. *)
Definition escapeChar (c : ascii) : string :=
  if Ascii.eqb c "&" then "&amp;"
  else if Ascii.eqb c "<" then "&lt;"
  else if Ascii.eqb c ">" then "&gt;"
  else if Ascii.eqb c Str.dquote then "&quot;"
  else if Ascii.eqb c Str.squote then "&#39;"
  else Str.chr c.

(** The characters that open or close a tag or an attribute value. *)
Definition is_tag_char (c : ascii) : bool :=
  Ascii.eqb c "<" || Ascii.eqb c ">" || Ascii.eqb c Str.dquote || Ascii.eqb c Str.squote.

(** [pat] occurs in [s]. *)
Fixpoint occurs (pat s : string) : bool :=
  String.prefix pat s
  || match s with
     | EmptyString => false
     | String _ r => occurs pat r
     end.

(** What follows a [<] does not start with [sc], in any case. *)
Definition opensNoScript (r : string) : bool :=
  match r with
  | String c1 r1 =>
      if Ascii.eqb (Str.lower_char c1) "s" then
        match r1 with
        | String c2 _ => negb (Ascii.eqb (Str.lower_char c2) "c")
        | EmptyString => false
        end
      else true
  | EmptyString => false
  end.

(** Every [<] of [s] is followed, inside [s], by something other than
    [sc]. *)
Fixpoint guarded (s : string) : bool :=
  match s with
  | EmptyString => true
  | String c r => (if Ascii.eqb c "<" then opensNoScript r else true) && guarded r
  end.

Lemma append_assoc (a b c : string) : (a ++ b) ++ c = a ++ (b ++ c).
Proof. induction a as [|d a IH]; simpl; [reflexivity|now rewrite IH]. Qed.

Lemma append_nil_r (a : string) : a ++ "" = a.
Proof. induction a as [|d a IH]; simpl; [reflexivity|now rewrite IH]. Qed.

Lemma replaceAll_app (c : ascii) (by_ a b : string) :
  Str.replaceAll c by_ (a ++ b) = Str.replaceAll c by_ a ++ Str.replaceAll c by_ b.
Proof.
  induction a as [|d a IH]; simpl; [reflexivity|].
  destruct (Ascii.eqb d c); rewrite IH; [|reflexivity].
  now rewrite append_assoc.
Qed.

Lemma escapeHtml_cons (c : ascii) (s : string) :
  Html.escapeHtml (String c s) = escapeChar c ++ Html.escapeHtml s.
Proof.
  unfold Html.escapeHtml, escapeChar.
  cbn [Str.replaceAll].
  destruct (Ascii.eqb_spec c "&") as [->|Hamp].
  { rewrite !replaceAll_app. reflexivity. }
  cbn [Str.replaceAll].
  destruct (Ascii.eqb_spec c "<") as [->|Hlt].
  { rewrite !replaceAll_app. reflexivity. }
  cbn [Str.replaceAll].
  destruct (Ascii.eqb_spec c ">") as [->|Hgt].
  { rewrite !replaceAll_app. reflexivity. }
  cbn [Str.replaceAll].
  destruct (Ascii.eqb_spec c Str.dquote) as [->|Hdq].
  { rewrite !replaceAll_app. reflexivity. }
  cbn [Str.replaceAll].
  destruct (Ascii.eqb_spec c Str.squote) as [->|Hsq].
  { reflexivity. }
  reflexivity.
Qed.

Lemma escapeHtml_chars (s : string) :
  Html.escapeHtml s = Str.concat (map escapeChar (Str.chars s)).
Proof.
  induction s as [|c s IH]; [reflexivity|].
  rewrite escapeHtml_cons, IH. unfold Str.concat, Str.chars. simpl.
  destruct (map escapeChar (list_ascii_of_string s)) eqn:E; simpl.
  - now rewrite append_nil_r.
  - reflexivity.
Qed.

Lemma escapeChar_tagless (c d : ascii) :
  In d (Str.chars (escapeChar c)) -> is_tag_char d = false.
Proof.
  unfold escapeChar.
  destruct (Ascii.eqb c "&"); [simpl; intuition (subst; reflexivity)|].
  destruct (Ascii.eqb c "<") eqn:Hlt; [simpl; intuition (subst; reflexivity)|].
  destruct (Ascii.eqb c ">") eqn:Hgt; [simpl; intuition (subst; reflexivity)|].
  destruct (Ascii.eqb c Str.dquote) eqn:Hdq; [simpl; intuition (subst; reflexivity)|].
  destruct (Ascii.eqb c Str.squote) eqn:Hsq; [simpl; intuition (subst; reflexivity)|].
  simpl. intros [<-|[]]. unfold is_tag_char. now rewrite Hlt, Hgt, Hdq, Hsq.
Qed.

Lemma escapeHtml_tagless (s : string) (d : ascii) :
  In d (Str.chars (Html.escapeHtml s)) -> is_tag_char d = false.
Proof.
  induction s as [|c s IH]; [intros []|].
  rewrite escapeHtml_cons, chars_app. intros Hd.
  apply in_app_or in Hd. destruct Hd as [Hd|Hd]; [|now apply IH].
  now apply escapeChar_tagless in Hd.
Qed.

Lemma opensNoScript_app (a b : string) :
  opensNoScript a = true -> opensNoScript (a ++ b) = true.
Proof.
  destruct a as [|c1 [|c2 a]]; simpl; try discriminate;
    destruct (Ascii.eqb (Str.lower_char c1) "s"); auto; discriminate.
Qed.

Lemma guarded_app (a b : string) :
  guarded a = true -> guarded b = true -> guarded (a ++ b) = true.
Proof.
  intros Ha Hb. induction a as [|c a IH]; simpl in *; [exact Hb|].
  apply andb_true_iff in Ha. destruct Ha as [Hc Ha].
  apply andb_true_iff. split; [|now apply IH].
  destruct (Ascii.eqb c "<"); [now apply opensNoScript_app|reflexivity].
Qed.

Lemma guarded_without_lt (s : string) :
  (forall c, In c (Str.chars s) -> Ascii.eqb c "<" = false) -> guarded s = true.
Proof.
  induction s as [|c s IH]; intros Hs; simpl; [reflexivity|].
  rewrite (Hs c (or_introl eq_refl)). simpl.
  apply IH. intros d Hd. apply Hs. now right.
Qed.

Lemma guarded_plain (s : string) : plain s -> guarded s = true.
Proof.
  intros Hs. apply guarded_without_lt. intros c Hc.
  specialize (Hs c Hc). unfold Str.is_markup in Hs.
  destruct (Ascii.eqb c "&"), (Ascii.eqb c "<"); simpl in Hs;
    try discriminate; reflexivity.
Qed.

Lemma guarded_escapeHtml (s : string) : guarded (Html.escapeHtml s) = true.
Proof.
  apply guarded_without_lt. intros c Hc.
  apply escapeHtml_tagless in Hc. unfold is_tag_char in Hc.
  destruct (Ascii.eqb c "<"); [discriminate|reflexivity].
Qed.

Lemma guarded_concat (l : list string) :
  Forall (fun s => guarded s = true) l -> guarded (Str.concat l) = true.
Proof.
  unfold Str.concat. induction 1 as [|x l Hx Hl IH]; simpl; [reflexivity|].
  destruct l; [exact Hx|]. apply guarded_app; [exact Hx|exact IH].
Qed.

Lemma lower_char_lt (c : ascii) : Str.lower_char c = "<"%char -> c = "<"%char.
Proof.
  destruct c as [[] [] [] [] [] [] [] []]; vm_compute; intros E;
    try reflexivity; discriminate E.
Qed.

Lemma toLowerCase_script (tag : string) :
  sameText tag "<script" ->
  exists c1 c2 rest,
    tag = String "<" (String c1 (String c2 rest))
    /\ Str.lower_char c1 = "s"%char /\ Str.lower_char c2 = "c"%char.
Proof.
  unfold sameText. destruct tag as [|c0 [|c1 [|c2 rest]]]; simpl; try discriminate.
  intros [= H0 H1 H2 _]. apply lower_char_lt in H0. subst c0.
  now exists c1, c2, rest.
Qed.

Lemma guarded_no_script (s tag : string) :
  guarded s = true -> sameText tag "<script" -> occurs tag s = false.
Proof.
  intros Hs Htag.
  destruct (toLowerCase_script tag Htag) as [c1 [c2 [rest [-> [H1 H2]]]]].
  induction s as [|c s IH]; [reflexivity|].
  cbn [guarded] in Hs. apply andb_true_iff in Hs. destruct Hs as [Hc Hs].
  cbn [occurs]. rewrite (IH Hs), orb_false_r.
  cbn [String.prefix].
  destruct (Ascii.ascii_dec "<" c) as [<-|Hne]; [|reflexivity].
  rewrite Ascii.eqb_refl in Hc.
  destruct s as [|d1 [|d2 s]]; cbn [String.prefix]; try reflexivity.
  - destruct (Ascii.ascii_dec c1 d1); reflexivity.
  - destruct (Ascii.ascii_dec c1 d1) as [<-|]; [|reflexivity].
    destruct (Ascii.ascii_dec c2 d2) as [<-|]; [|reflexivity].
    cbn [opensNoScript] in Hc. rewrite H1, H2 in Hc. simpl in Hc. discriminate.
Qed.

Section RenderFacts.
Context `{Builtins}.

Lemma guarded_toFixed2 (x : float) : guarded (toFixed2 x) = true.
Proof. apply guarded_plain. intros c Hc. exact (toFixed2_plain x c Hc). Qed.

Lemma guarded_renderRow (it : Item.t) : guarded (Html.renderRow "EUR" it) = true.
Proof.
  unfold Html.renderRow.
  repeat first
    [ apply guarded_escapeHtml
    | apply guarded_toFixed2
    | apply guarded_plain, plain_of_Z
    | apply guarded_app
    | vm_compute; reflexivity ].
Qed.

Lemma guarded_renderCartHtml (s : Server) :
  guarded (evalState Html.renderCartHtml s) = true.
Proof.
  unfold evalState, Html.renderCartHtml.
  cbn [bind ret Monad_state runState]. rewrite cartTotals_run. cbn [fst].
  unfold Html.renderPage. cbn [Totals.items Totals.subtotal Totals.currency].
  apply guarded_app; [vm_compute; reflexivity|].
  apply guarded_app.
  - destruct (map toItem (JsMap.values (CART s))) as [|it items] eqn:E.
    + vm_compute; reflexivity.
    + apply guarded_concat. apply Forall_forall. intros row Hrow.
      apply in_map_iff in Hrow. destruct Hrow as [it' [<- _]].
      apply guarded_renderRow.
  - repeat first
      [ apply guarded_toFixed2
      | apply guarded_app
      | vm_compute; reflexivity ].
Qed.

End RenderFacts.

(** C8: [escapeHtml] replaces each of [& < > " '] by its entity and leaves
    the other characters alone, so that an escaped name contains none of
    [< > " ']; a row embeds the name of its item through [escapeHtml]; and the
    page served for [GET /] and [GET /cart] is the rendered cart, unchanged by
    the request, which contains no [<script], in any case of the letters,
    whatever the names of the pizzas in the cart. *)
Theorem page_never_opens_a_script_tag `{Builtins} (s : Server) :
  (forall name, Html.escapeHtml name = Str.concat (map escapeChar (Str.chars name)))
  /\ (forall name c, In c (Str.chars (Html.escapeHtml name)) -> is_tag_char c = false)
  /\ (forall currency it,
         exists rest,
           Html.renderRow currency it
           = Html.rowOpen ++ Html.escapeHtml (Item.name it) ++ rest)
  /\ (forall url, url = "/" \/ url = "/cart" ->
         runState (Html.httpHandler "GET" url) s
         = ({| Html.status := 200;
               Html.contentType := "text/html; charset=utf-8";
               Html.body := Html.HtmlBody (evalState Html.renderCartHtml s) |}, s))
  /\ (forall tag, sameText tag "<script" ->
                  occurs tag (evalState Html.renderCartHtml s) = false).
Proof.
  split; [exact escapeHtml_chars|]. split; [exact escapeHtml_tagless|].
  split; [|split].
  - intros currency it. unfold Html.renderRow. eexists. reflexivity.
  - intros url [->| ->]; reflexivity.
  - intros tag Htag. apply guarded_no_script; [|exact Htag].
    apply guarded_renderCartHtml.
Qed.

(** A catalog whose pizza is named like a script element, and the cart
    that holds it. *)
Definition scriptCatalog : list Pizza.t :=
  [ {| Pizza.name := "<script>alert(1)</script>"; Pizza.price := 9.5%float;
       Pizza.ingredients := []; Pizza.allergens := [] |} ].

Definition scriptCart : Server :=
  serve [Call_add_to_cart (Js.Str "<script>alert(1)</script>") (Js.Number 2%float)]
    (boot scriptCatalog).

(** The page for a cart that holds a pizza named [<script>alert(1)</script>],
    with the reference built-ins: the name is there in its escaped form, and
    neither [<script] nor [<SCRIPT] occurs. *)
Lemma page_never_opens_a_script_tag_witness :
  map (fun entry => CartLine.name (snd entry)) (CART scriptCart)
  = ["<script>alert(1)</script>"]
  /\ occurs "<td>&lt;script&gt;alert(1)&lt;/script&gt;</td>"
       (evalState (@Html.renderCartHtml reference) scriptCart) = true
  /\ occurs "<script" (evalState (@Html.renderCartHtml reference) scriptCart) = false
  /\ occurs "<SCRIPT" (evalState (@Html.renderCartHtml reference) scriptCart) = false.
Proof.
  destruct (@page_never_opens_a_script_tag reference scriptCart) as [_ [_ [_ [_ Hpage]]]].
  split; [reflexivity|]. split; [vm_compute; reflexivity|]. split.
  - apply Hpage. reflexivity.
  - apply Hpage. reflexivity.
Defined.

(* ===================================================================== *)
(** ** Loading the catalog: what fails and what is reported *)
(* ===================================================================== *)

Section MapiFacts.
Context {A B : Type} (f : nat -> A -> Js.Result B).




End MapiFacts.

Section LoaderFacts.
Context `{Builtins}.


(** Every loaded name is trimmed. *)
Lemma normalizePizza_trimmed (v : Js.Value) (p : Pizza.t) :
  normalizePizza v = Ok p -> Str.trim (Pizza.name p) = Pizza.name p.
Proof.
  unfold normalizePizza.
  destruct (Js.get v "name") as [name|]; [|discriminate].
  destruct (Js.get v "price") as [price|]; [|discriminate].
  destruct (Js.get v "ingredients") as [ingredients|]; [|discriminate].
  destruct (Js.get v "allergens") as [allergens|]; [|discriminate].
  cbn [bind ret Js.Monad_Result]. intros [= <-]. cbn [Pizza.name].
  apply trim_idempotent.
Qed.



End LoaderFacts.

Section TextFormat.
Context `{Builtins}.






End TextFormat.

(** A text catalog whose first line is a comment and whose second line
    lacks two fields. *)
Definition commentedCatalog : string :=
  "# menu" ++ Str.chr Str.LF ++ "Margherita | 8".

(** C5 (the message of a failed load): on a source whose line 1 is a
    comment and whose line 2 has two fields, the load fails, and the message
    says [Ligne 1], the position of the line among the data lines, where the
    offending line is line 2 of the source. *)
Theorem reported_line_counts_data_lines `{Builtins} :
  Str.splitLines commentedCatalog = ["# menu"; "Margherita | 8"]
  /\ dataLines commentedCatalog = ["Margherita | 8"]
  /\ loadPizzas (TextFile commentedCatalog) = Throw (Js.Error (formatMessage 0))
  /\ formatMessage 0
     = "Ligne 1: format attendu " ++ Html.q
       ++ "name | price | ingredients | allergens" ++ Html.q.
Proof. repeat split. Qed.

Section JsonFormat.
Context `{Builtins}.



End JsonFormat.




(* ===================================================================== *)
(** ** Concrete runs *)
(* ===================================================================== *)

(** A text catalog with a comment, a blank line, a decimal comma and
    Windows line ends. *)
Definition textCatalog : string :=
  "# name | price | ingredients | allergens" ++ Str.chr Str.CR ++ Str.chr Str.LF
  ++ Str.chr Str.CR ++ Str.chr Str.LF
  ++ "  Margherita | 8,5 | tomato, mozzarella ,basil | gluten, milk"
  ++ Str.chr Str.CR ++ Str.chr Str.LF
  ++ "Marinara|7|tomato,garlic,|" ++ Str.chr Str.LF.

Example textCatalog_loads :
  @loadPizzas reference (TextFile textCatalog)
  = Ok [ {| Pizza.name := "Margherita"; Pizza.price := 8.5%float;
            Pizza.ingredients := ["tomato"; "mozzarella"; "basil"];
            Pizza.allergens := ["gluten"; "milk"] |};
         {| Pizza.name := "Marinara"; Pizza.price := 7%float;
            Pizza.ingredients := ["tomato"; "garlic"];
            Pizza.allergens := [] |} ].
Proof. vm_compute. reflexivity. Qed.

(** [add_to_cart("Margherita", 2)], [add_to_cart("Margherita", 1)] and
    [remove_from_cart("Margherita", 3)] leave the cart empty, with a
    subtotal of 0 that the page prints as [0.00]. *)
Example remove_all_empties_the_cart :
  let s := serve [ Call_add_to_cart (Js.Str "Margherita") (Js.Number 2%float);
                   Call_add_to_cart (Js.Str "Margherita") (Js.Number 1%float);
                   Call_remove_from_cart (Js.Str "Margherita") (Js.Number 3%float) ]
             (boot menu) in
  CART s = []
  /\ evalState get_cart s
     = success (CartJson {| Totals.items := []; Totals.subtotal := 0%float;
                            Totals.currency := "EUR" |})
  /\ Reference.toFixed2 (Totals.subtotal (evalState cartTotals s)) = "0.00".
Proof. repeat split. Qed.

(** A quantity of 2.5 or 0 is refused and the cart stays as it was. *)
Example refused_quantities_change_nothing :
  runState (callTool (Call_add_to_cart (Js.Str "Margherita") (Js.Number 2.5%float)))
    threeMargheritas = (Invalid, threeMargheritas)
  /\ runState (callTool (Call_remove_from_cart (Js.Str "Margherita") (Js.Number 0%float)))
       threeMargheritas = (Invalid, threeMargheritas).
Proof. split; reflexivity. Qed.

(* ===================================================================== *)
(** * The rest of the server *)
(* ===================================================================== *)

(** ** Start-up *)

(** [process.env.X]: [None] when the variable is not set. *)
Definition Env : Type := option string.

(** [a || b] on a string that may be undefined: the empty string is falsy
    as well. *)
Definition orElse (a : option string) (b : option string) : option string :=
  match a with
  | Some (String _ _) => a
  | _ => b
  end.

(** [s.split("=", 2)[1]]: the piece between the first and the second [=],
    [undefined] when there is no [=]. *)
Definition secondPiece (s : string) : option string :=
  nth_error (firstn 2 (Str.split "=" s)) 1.

(** [a || d] with a default [d] that is a string. *)
Definition orDefault (a : option string) (d : string) : string :=
  match a with
  | Some (String c r) => String c r
  | _ => d
  end.

(** [PIZZAS_FILE]: the environment variable, else the value of the first
    [--pizzas=] argument, else [./pizzas.json]. *)
Definition pizzasFile (env : Env) (argv : list string) : string :=
  orDefault
    (orElse env
       match find (String.prefix "--pizzas=") argv with
       | Some a => secondPiece a
       | None => None
       end)
    "./pizzas.json".

(** How the boot sequence ends: the server runs on its state, or the
    process exits with a code. *)
Inductive Boot : Type :=
| Running (s : Server)
| Exited (code : Z).

Section Bootstrap.
Context `{Builtins}.

(** [try { PIZZAS = await loadPizzas(PIZZAS_FILE) } catch { process.exit(1) }],
    followed by the start of the two surfaces on the empty cart. *)
Definition bootstrap (src : Source) : Boot :=
  match loadPizzas src with
  | Ok pizzas => Running (boot pizzas)
  | Throw _ => Exited 1
  end.

End Bootstrap.

(* ===================================================================== *)
(** ** What a loaded catalog looks like *)
(* ===================================================================== *)

Lemma split_pieces_without_separator (sep : ascii) (s x : string) :
  In x (Str.split sep s) -> ~ In sep (Str.chars x).
Proof.
  revert x. induction s as [|c s IH]; intros x; simpl.
  - intros [<-|[]] [].
  - destruct (Ascii.eqb_spec c sep) as [->|Hc].
    + intros [<-|Hx]; [intros []|now apply IH].
    + destruct (Str.split sep s) as [|p ps] eqn:E.
      * intros [<-|[]] [Hin|[]]. congruence.
      * intros [<-|Hx].
        -- intros [Hin|Hin]; [congruence|]. apply (IH p); [now left|exact Hin].
        -- apply IH. now right.
Qed.

Lemma trimStart_chars (s : string) (c : ascii) :
  In c (Str.chars (Str.trimStart s)) -> In c (Str.chars s).
Proof.
  induction s as [|d s IH]; simpl; [exact id|].
  destruct (Str.is_space d); [intros Hc; right; now apply IH|exact id].
Qed.

Lemma trimEnd_chars (s : string) (c : ascii) :
  In c (Str.chars (Str.trimEnd s)) -> In c (Str.chars s).
Proof.
  induction s as [|d s IH]; simpl; [exact id|].
  destruct (Str.trimEnd s) as [|e r] eqn:E.
  - destruct (Str.is_space d); [intros []|].
    intros [<-|[]]. now left.
  - intros [<-|Hc]; [now left|]. right. now apply IH.
Qed.

Lemma trim_chars (s : string) (c : ascii) :
  In c (Str.chars (Str.trim s)) -> In c (Str.chars s).
Proof. intros Hc. now apply trimStart_chars, trimEnd_chars. Qed.

Lemma splitList_entry (s x : string) :
  In x (splitList s) ->
  x <> "" /\ Str.trim x = x /\ ~ In ","%char (Str.chars x).
Proof.
  unfold splitList. intros Hx.
  apply filter_In in Hx. destruct Hx as [Hx Hne].
  apply in_map_iff in Hx. destruct Hx as [piece [<- Hpiece]].
  split; [|split].
  - intros E. rewrite E in Hne. discriminate.
  - apply trim_idempotent.
  - intros Hcomma. apply trim_chars in Hcomma.
    exact (split_pieces_without_separator _ _ _ Hpiece Hcomma).
Qed.

(** X1: every element that [splitList] returns is a trimmed, non-empty
    string without a comma. *)
Theorem splitList_elements_are_clean (s : string) :
  Forall (fun x => x <> "" /\ Str.trim x = x /\ ~ In ","%char (Str.chars x))
    (splitList s).
Proof. apply Forall_forall. intros x Hx. now apply splitList_entry in Hx. Qed.

Section MapiResults.
Context {A B : Type} (f : nat -> A -> Js.Result B).

Lemma mapi_from_results (P : B -> Prop) :
  (forall i x y, f i x = Ok y -> P y) ->
  forall idx l ys, Js.mapi_from f idx l = Ok ys ->
                   Forall P ys /\ List.length ys = List.length l.
Proof.
  intros Hf idx l. revert idx. induction l as [|x l IH]; intros idx ys; simpl.
  - intros [= <-]. split; [constructor|reflexivity].
  - destruct (f idx x) as [y|e] eqn:Hx; [|discriminate].
    destruct (Js.mapi_from f (S idx) l) as [zs|e] eqn:Hl; [|discriminate].
    intros [= <-]. destruct (IH (S idx) zs Hl) as [Hall Hlen]. split.
    + constructor; [exact (Hf idx x y Hx)|exact Hall].
    + simpl. now rewrite Hlen.
Qed.

End MapiResults.

Section LoadedCatalog.
Context `{Builtins}.

Lemma stringList_of_strings (l : list string) :
  stringList (Js.Array (map Js.Str l)) = l.
Proof.
  cbn [stringList]. induction l as [|x l IH]; simpl; [reflexivity|].
  now rewrite IH.
Qed.

(** What a line that parses becomes. *)
Lemma parseLine_ok (idx : nat) (line : string) (p : Pizza.t) :
  parseLine idx line = Ok p ->
  exists name priceStr ingredientsStr allergensStr rest,
    map Str.trim (Str.split "|" line)
    = name :: priceStr :: ingredientsStr :: allergensStr :: rest
    /\ Num.isNaN (StringToNumber (Str.replaceFirst "," "." priceStr)) = false
    /\ p = {| Pizza.name := Str.trim name;
              Pizza.price := StringToNumber (Str.replaceFirst "," "." priceStr);
              Pizza.ingredients := splitList ingredientsStr;
              Pizza.allergens := splitList allergensStr |}.
Proof.
  unfold parseLine. cbv zeta.
  destruct (map Str.trim (Str.split "|" line)) as [|name [|priceStr [|ing [|all rest]]]];
    try discriminate.
  destruct (Num.isNaN _) eqn:Hnan; [discriminate|].
  unfold normalizePizza. cbn [Js.get Js.lookup String.eqb Ascii.eqb Bool.eqb].
  cbn [bind ret Js.Monad_Result ToString ToNumber].
  rewrite !stringList_of_strings. intros [= <-].
  exists name, priceStr, ing, all, rest. repeat split. exact Hnan.
Qed.


End LoadedCatalog.


Section LoadOutcome.
Context `{Builtins}.






Lemma loaded_names_trimmed (src : Source) (pizzas : list Pizza.t) :
  loadPizzas src = Ok pizzas ->
  Forall (fun p => Str.trim (Pizza.name p) = Pizza.name p) pizzas.
Proof.
  destruct src as [data|raw]; cbn [loadPizzas].
  - destruct data; try discriminate. unfold Js.mapi. intros Hload.
    apply (mapi_from_results (fun _ p => normalizePizza p)
             (fun p => Str.trim (Pizza.name p) = Pizza.name p)) in Hload.
    + exact (proj1 Hload).
    + intros _ v p. apply normalizePizza_trimmed.
  - unfold Js.mapi. intros Hload.
    apply (mapi_from_results parseLine
             (fun p => Str.trim (Pizza.name p) = Pizza.name p)) in Hload.
    + exact (proj1 Hload).
    + intros idx line p Hp.
      destruct (parseLine_ok idx line p Hp) as [name [? [? [? [? [_ [_ ->]]]]]]].
      apply trim_idempotent.
Qed.

(** X4: whatever the format of the source, the name of every loaded pizza
    is trimmed: it neither starts nor ends with white space. *)
Theorem loaded_names_are_trimmed (src : Source) (pizzas : list Pizza.t) :
  loadPizzas src = Ok pizzas ->
  Forall (fun p => Str.trim (Pizza.name p) = Pizza.name p) pizzas.
Proof. exact (loaded_names_trimmed src pizzas). Qed.

End LoadOutcome.


Lemma loaded_names_are_trimmed_witness :
  exists pizzas,
    @loadPizzas reference (TextFile textCatalog) = Ok pizzas
    /\ Forall (fun p => Str.trim (Pizza.name p) = Pizza.name p) pizzas.
Proof.
  eexists. split; [exact textCatalog_loads|].
  exact (@loaded_names_are_trimmed reference (TextFile textCatalog) _ textCatalog_loads).
Defined.

(* ===================================================================== *)
(** ** Looking a pizza up *)
(* ===================================================================== *)



(* ===================================================================== *)
(** ** What the tools keep true of the state *)
(* ===================================================================== *)

Lemma lookupPizza_some (pizzas : list Pizza.t) (name : string) (pizza : Pizza.t) :
  lookupPizza pizzas name = Some pizza ->
  In pizza pizzas
  /\ Str.toLowerCase (Pizza.name pizza) = Str.toLowerCase (Str.trim name).
Proof.
  unfold lookupPizza. intros Hfind. apply find_some in Hfind.
  destruct Hfind as [Hin Heq]. split; [exact Hin|now apply String.eqb_eq].
Qed.

Lemma add_to_cart_PIZZAS (name : string) (quantity : Z) (s : Server) :
  PIZZAS (execState (add_to_cart name quantity) s) = PIZZAS s.
Proof.
  unfold execState. destruct (lookupPizza (PIZZAS s) name) as [pizza|] eqn:Hfind.
  - now rewrite (add_to_cart_hit _ _ _ _ Hfind).
  - now rewrite (add_to_cart_miss _ _ _ Hfind).
Qed.

Lemma remove_from_cart_PIZZAS (name : string) (quantity : Z) (s : Server) :
  PIZZAS (execState (remove_from_cart name quantity) s) = PIZZAS s.
Proof.
  unfold execState.
  destruct (JsMap.get (Str.toLowerCase (Str.trim name)) (CART s)) as [line|] eqn:Hget.
  - now rewrite (remove_from_cart_hit _ _ _ _ Hget).
  - now rewrite (remove_from_cart_miss _ _ _ Hget).
Qed.

(** A step of [serve] is no step, an [add_to_cart] or a [remove_from_cart]
    with a quantity that the schema accepted. *)
Lemma callTool_cases (req : Request) (s : Server) :
  execState (callTool req) s = s
  \/ (exists n q, 1 <= q /\ execState (callTool req) s = execState (add_to_cart n q) s)
  \/ (exists n q, 1 <= q
                  /\ execState (callTool req) s = execState (remove_from_cart n q) s).
Proof.
  destruct req as [m ex inc|name quantity|name quantity|]; unfold callTool.
  - left. destruct (Schema.optNumber m), (Schema.optStrings ex), (Schema.optStrings inc);
      reflexivity.
  - destruct (Schema.str name) as [n|]; [|now left].
    destruct (Schema.quantity quantity) as [q|] eqn:Hq; [|now left].
    right. left. exists n, q. split; [now apply quantity_accepted in Hq|].
    apply execState_handled.
  - destruct (Schema.str name) as [n|]; [|now left].
    destruct (Schema.quantity quantity) as [q|] eqn:Hq; [|now left].
    right. right. exists n, q. split; [now apply quantity_accepted in Hq|].
    apply execState_handled.
  - now left.
Qed.

(** An invariant of the two mutating handlers is an invariant of every
    sequence of tool calls. *)
Lemma serve_invariant (P : Server -> Prop) :
  (forall n q s, P s -> P (execState (add_to_cart n q) s)) ->
  (forall n q s, P s -> P (execState (remove_from_cart n q) s)) ->
  forall reqs s, P s -> P (serve reqs s).
Proof.
  intros Hadd Hremove reqs. induction reqs as [|req reqs IH]; intros s Hs; [exact Hs|].
  cbn [serve fold_left]. apply IH.
  destruct (callTool_cases req s) as [-> | [[n [q [_ ->]]] | [n [q [_ ->]]]]]; auto.
Qed.

Lemma serve_PIZZAS (reqs : list Request) (s : Server) :
  PIZZAS (serve reqs s) = PIZZAS s.
Proof.
  apply (serve_invariant (fun s' => PIZZAS s' = PIZZAS s)); [| |reflexivity].
  - intros n q s' <-. apply add_to_cart_PIZZAS.
  - intros n q s' <-. apply remove_from_cart_PIZZAS.
Qed.

(** X6: no sequence of tool calls, valid or not, changes the catalog. *)
Theorem catalog_is_never_modified (reqs : list Request) (s : Server) :
  PIZZAS (serve reqs s) = PIZZAS s
  /\ forall req, PIZZAS (execState (callTool req) s) = PIZZAS s.
Proof.
  split; [apply serve_PIZZAS|].
  intros req. exact (serve_PIZZAS [req] s).
Qed.

(** The entry is filed under the lower-cased name of its line, and the
    line has the name and the price of a pizza of the catalog. *)
Definition filed (pizzas : list Pizza.t) (entry : string * CartLine.t) : Prop :=
  fst entry = Str.toLowerCase (CartLine.name (snd entry))
  /\ exists p, In p pizzas
               /\ CartLine.name (snd entry) = Pizza.name p
               /\ CartLine.unitPrice (snd entry) = Pizza.price p.

(** The cart holds each key once, and every entry is filed. *)
Definition consistent (s : Server) : Prop :=
  JsMap.wf (CART s) /\ Forall (filed (PIZZAS s)) (CART s).

Lemma add_to_cart_consistent (name : string) (quantity : Z) (s : Server) :
  consistent s -> consistent (execState (add_to_cart name quantity) s).
Proof.
  intros [Hwf Hfiled]. unfold execState.
  destruct (lookupPizza (PIZZAS s) name) as [pizza|] eqn:Hfind.
  - rewrite (add_to_cart_hit _ _ _ _ Hfind). split; cbn [snd CART PIZZAS].
    + now apply wf_set.
    + apply Forall_set; [exact Hfiled|]. unfold addedLine.
      destruct (JsMap.get (Str.toLowerCase (Pizza.name pizza)) (CART s))
        as [line|] eqn:Hget.
      * apply get_In in Hget. rewrite Forall_forall in Hfiled.
        destruct (Hfiled _ Hget) as [Hkey Hpizza]. split; [exact Hkey|exact Hpizza].
      * split; [reflexivity|]. exists pizza.
        split; [exact (proj1 (lookupPizza_some _ _ _ Hfind))|]. now split.
  - rewrite (add_to_cart_miss _ _ _ Hfind). now split.
Qed.

Lemma remove_from_cart_consistent (name : string) (quantity : Z) (s : Server) :
  consistent s -> consistent (execState (remove_from_cart name quantity) s).
Proof.
  intros [Hwf Hfiled]. unfold execState.
  destruct (JsMap.get (Str.toLowerCase (Str.trim name)) (CART s)) as [line|] eqn:Hget.
  - rewrite (remove_from_cart_hit _ _ _ _ Hget). cbn [snd].
    destruct (CartLine.quantity line - quantity <=? 0); split; cbn [CART PIZZAS].
    + now apply wf_delete.
    + now apply Forall_delete.
    + now apply wf_set.
    + apply Forall_set; [exact Hfiled|].
      apply get_In in Hget. rewrite Forall_forall in Hfiled.
      destruct (Hfiled _ Hget) as [Hkey Hpizza]. split; [exact Hkey|exact Hpizza].
  - rewrite (remove_from_cart_miss _ _ _ Hget). now split.
Qed.

Lemma serve_consistent (reqs : list Request) (pizzas : list Pizza.t) :
  consistent (serve reqs (boot pizzas)).
Proof.
  apply (serve_invariant consistent).
  - intros n q s. apply add_to_cart_consistent.
  - intros n q s. apply remove_from_cart_consistent.
  - split; constructor.
Qed.


(** X8: after any sequence of tool calls from the empty cart, every line
    of the cart carries the name and the price of a pizza of the catalog. *)
Theorem lines_are_priced_from_the_catalog (reqs : list Request) (pizzas : list Pizza.t) :
  Forall (fun entry =>
            exists p, In p pizzas
                      /\ CartLine.name (snd entry) = Pizza.name p
                      /\ CartLine.unitPrice (snd entry) = Pizza.price p)
    (CART (serve reqs (boot pizzas))).
Proof.
  destruct (serve_consistent reqs pizzas) as [_ Hfiled].
  rewrite serve_PIZZAS in Hfiled. cbn [boot PIZZAS] in Hfiled.
  eapply Forall_impl; [|exact Hfiled]. intros entry [_ Hpizza]. exact Hpizza.
Qed.

(** X9: once the catalog is loaded and the server runs, every pizza of
    the catalog can be added under the name the catalog gives it, at any
    point of any sequence of tool calls: [add_to_cart] does not reply with an
    error. *)
Theorem listed_pizza_can_be_added `{Builtins}
    (src : Source) (s0 : Server) (reqs : list Request) (p : Pizza.t) (quantity : Z) :
  bootstrap src = Running s0 ->
  In p (PIZZAS s0) ->
  isError (evalState (add_to_cart (Pizza.name p) quantity) (serve reqs s0)) = false.
Proof.
  unfold bootstrap. destruct (loadPizzas src) as [pizzas|e] eqn:Hload; [|discriminate].
  intros [= <-] Hin. cbn [boot PIZZAS] in Hin.
  pose proof (loaded_names_trimmed src pizzas Hload) as Htrim.
  rewrite Forall_forall in Htrim.
  destruct (catalog_pizza_resolves pizzas p Hin (Htrim p Hin)) as [found [Hfound _]].
  unfold evalState. erewrite add_to_cart_hit; [reflexivity|].
  rewrite serve_PIZZAS. exact Hfound.
Qed.

Lemma listed_pizza_can_be_added_witness :
  isError (evalState (add_to_cart "Marinara" 1)
             (serve [Call_add_to_cart (Js.Str "margherita") Js.Undefined]
                (boot [ {| Pizza.name := "Margherita"; Pizza.price := 8.5%float;
                           Pizza.ingredients := ["tomato"; "mozzarella"; "basil"];
                           Pizza.allergens := ["gluten"; "milk"] |};
                        {| Pizza.name := "Marinara"; Pizza.price := 7%float;
                           Pizza.ingredients := ["tomato"; "garlic"];
                           Pizza.allergens := [] |} ]))) = false.
Proof.
  refine (@listed_pizza_can_be_added reference (TextFile textCatalog) _
            [Call_add_to_cart (Js.Str "margherita") Js.Undefined]
            {| Pizza.name := "Marinara"; Pizza.price := 7%float;
               Pizza.ingredients := ["tomato"; "garlic"];
               Pizza.allergens := [] |} 1 _ _).
  - unfold bootstrap. rewrite textCatalog_loads. reflexivity.
  - right. left. reflexivity.
Defined.

(* ===================================================================== *)
(** ** How the two mutating tools compose *)
(* ===================================================================== *)

Section JsMapUpdates.
Context {V : Type}.
Implicit Types (m : JsMap.t V) (k : string) (v : V).





End JsMapUpdates.

(** The cart after [add_to_cart], by cases on the lookup. *)
Lemma add_to_cart_CART (name : string) (quantity : Z) (s : Server) :
  CART (execState (add_to_cart name quantity) s)
  = match lookupPizza (PIZZAS s) name with
    | Some pizza =>
        JsMap.set (Str.toLowerCase (Str.trim name))
          (addedLine pizza quantity (CART s)) (CART s)
    | None => CART s
    end.
Proof.
  unfold execState. destruct (lookupPizza (PIZZAS s) name) as [pizza|] eqn:Hfind.
  - rewrite (add_to_cart_hit _ _ _ _ Hfind). cbn [snd CART].
    now rewrite (proj2 (lookupPizza_some _ _ _ Hfind)).
  - now rewrite (add_to_cart_miss _ _ _ Hfind).
Qed.

(** The cart after [remove_from_cart], by cases on the line. *)
Lemma remove_from_cart_CART (name : string) (quantity : Z) (s : Server) :
  CART (execState (remove_from_cart name quantity) s)
  = let key := Str.toLowerCase (Str.trim name) in
    match JsMap.get key (CART s) with
    | Some line =>
        if CartLine.quantity line - quantity <=? 0 then JsMap.delete key (CART s)
        else JsMap.set key
               (CartLine.set_quantity line (CartLine.quantity line - quantity))
               (CART s)
    | None => CART s
    end.
Proof.
  unfold execState. cbv zeta.
  destruct (JsMap.get (Str.toLowerCase (Str.trim name)) (CART s)) as [line|] eqn:Hget.
  - now rewrite (remove_from_cart_hit _ _ _ _ Hget).
  - now rewrite (remove_from_cart_miss _ _ _ Hget).
Qed.

Lemma addedLine_key (pizza : Pizza.t) (name : string) (quantity : Z) (cart : Cart) :
  Str.toLowerCase (Pizza.name pizza) = Str.toLowerCase (Str.trim name) ->
  addedLine pizza quantity cart
  = match JsMap.get (Str.toLowerCase (Str.trim name)) cart with
    | Some line => CartLine.set_quantity line (CartLine.quantity line + quantity)
    | None => {| CartLine.name := Pizza.name pizza;
                 CartLine.unitPrice := Pizza.price pizza;
                 CartLine.quantity := 0 + quantity |}
    end.
Proof. unfold addedLine. now intros ->. Qed.








(** X14: the two mutating tools depend on the name only through its
    trimmed, lower-cased form: two names with the same form leave the same
    cart. *)
Theorem names_count_up_to_case_and_spaces (s : Server) (name name' : string) (quantity : Z) :
  Str.toLowerCase (Str.trim name) = Str.toLowerCase (Str.trim name') ->
  evalState (findPizzaByName name) s = evalState (findPizzaByName name') s
  /\ CART (execState (add_to_cart name quantity) s)
     = CART (execState (add_to_cart name' quantity) s)
  /\ CART (execState (remove_from_cart name quantity) s)
     = CART (execState (remove_from_cart name' quantity) s).
Proof.
  intros Hsame.
  assert (Hfind : lookupPizza (PIZZAS s) name = lookupPizza (PIZZAS s) name').
  { unfold lookupPizza. now rewrite Hsame. }
  split; [|split].
  - unfold evalState. now rewrite !findPizzaByName_run.
  - rewrite !add_to_cart_CART, Hfind, Hsame. reflexivity.
  - rewrite !remove_from_cart_CART, Hsame. reflexivity.
Qed.

Lemma names_count_up_to_case_and_spaces_witness :
  evalState (findPizzaByName "  MARGHERITA ") threeMargheritas
  = evalState (findPizzaByName "margherita") threeMargheritas
  /\ CART (execState (add_to_cart "  MARGHERITA " 2) threeMargheritas)
     = CART (execState (add_to_cart "margherita" 2) threeMargheritas)
  /\ CART (execState (remove_from_cart "  MARGHERITA " 2) threeMargheritas)
     = CART (execState (remove_from_cart "margherita" 2) threeMargheritas).
Proof.
  apply (names_count_up_to_case_and_spaces threeMargheritas
           "  MARGHERITA " "margherita" 2).
  reflexivity.
Defined.

(* ===================================================================== *)
(** ** Escaping loses nothing *)
(* ===================================================================== *)

(** The reading of the five entities that [escapeHtml] writes, as a browser
    decodes them. *)
Fixpoint unescapeHtml (s : string) : string :=
  match s with
  | String "&" (String "a" (String "m" (String "p" (String ";" r)))) =>
      String "&" (unescapeHtml r)
  | String "&" (String "l" (String "t" (String ";" r))) =>
      String "<" (unescapeHtml r)
  | String "&" (String "g" (String "t" (String ";" r))) =>
      String ">" (unescapeHtml r)
  | String "&" (String "q" (String "u" (String "o" (String "t" (String ";" r))))) =>
      String Str.dquote (unescapeHtml r)
  | String "&" (String "#" (String "3" (String "9" (String ";" r)))) =>
      String Str.squote (unescapeHtml r)
  | String c r => String c (unescapeHtml r)
  | EmptyString => EmptyString
  end.

Lemma unescapeHtml_other (c : ascii) (s : string) :
  c <> "&"%char -> unescapeHtml (String c s) = String c (unescapeHtml s).
Proof.
  intros Hc. destruct c as [[] [] [] [] [] [] [] []];
    try reflexivity; exfalso; apply Hc; reflexivity.
Qed.

Lemma unescapeHtml_escapeChar (c : ascii) (s : string) :
  unescapeHtml (escapeChar c ++ s) = String c (unescapeHtml s).
Proof.
  unfold escapeChar.
  destruct (Ascii.eqb_spec c "&") as [->|Hamp]; [reflexivity|].
  destruct (Ascii.eqb_spec c "<") as [->|Hlt]; [reflexivity|].
  destruct (Ascii.eqb_spec c ">") as [->|Hgt]; [reflexivity|].
  destruct (Ascii.eqb_spec c Str.dquote) as [->|Hdq]; [reflexivity|].
  destruct (Ascii.eqb_spec c Str.squote) as [->|Hsq]; [reflexivity|].
  now apply unescapeHtml_other.
Qed.

Lemma unescape_escape (s : string) : unescapeHtml (Html.escapeHtml s) = s.
Proof.
  induction s as [|c s IH]; [reflexivity|].
  now rewrite escapeHtml_cons, unescapeHtml_escapeChar, IH.
Qed.

(** X15: decoding the entities of an escaped text gives the text back, so
    [escapeHtml] never maps two different names to the same text. *)
Theorem escapeHtml_can_be_undone :
  (forall s, unescapeHtml (Html.escapeHtml s) = s)
  /\ (forall a b, Html.escapeHtml a = Html.escapeHtml b -> a = b).
Proof.
  split; [exact unescape_escape|].
  intros a b Hab. rewrite <- (unescape_escape a), <- (unescape_escape b).
  now rewrite Hab.
Qed.

Lemma escapeHtml_can_be_undone_witness :
  unescapeHtml (Html.escapeHtml "Ham & <Cheese> 'n' more")
  = "Ham & <Cheese> 'n' more"
  /\ "&amp;" = "&amp;".
Proof.
  destruct escapeHtml_can_be_undone as [Hround Hinj].
  split; [apply Hround|].
  apply (Hinj "&amp;" "&amp;"). reflexivity.
Defined.

Lemma escapeChar_plain (c : ascii) : Str.is_markup c = false -> escapeChar c = Str.chr c.
Proof.
  unfold Str.is_markup, escapeChar. intros Hc.
  destruct (Ascii.eqb c "&"); [discriminate|].
  destruct (Ascii.eqb c "<"); [discriminate|].
  destruct (Ascii.eqb c ">"); [discriminate|].
  destruct (Ascii.eqb c Str.dquote); [discriminate|].
  destruct (Ascii.eqb c Str.squote); [discriminate|reflexivity].
Qed.

Lemma length_app (a b : string) :
  String.length (a ++ b) = (String.length a + String.length b)%nat.
Proof. induction a as [|c a IH]; simpl; [reflexivity|now rewrite IH]. Qed.

Lemma escapeChar_length (c : ascii) :
  (1 <= String.length (escapeChar c))%nat
  /\ (Str.is_markup c = true -> 1 < String.length (escapeChar c))%nat.
Proof.
  unfold escapeChar, Str.is_markup.
  destruct (Ascii.eqb c "&"); [simpl; split; [lia|intros _; lia]|].
  destruct (Ascii.eqb c "<"); [simpl; split; [lia|intros _; lia]|].
  destruct (Ascii.eqb c ">"); [simpl; split; [lia|intros _; lia]|].
  destruct (Ascii.eqb c Str.dquote); [simpl; split; [lia|intros _; lia]|].
  destruct (Ascii.eqb c Str.squote); [simpl; split; [lia|intros _; lia]|].
  simpl. split; [lia|discriminate].
Qed.

Lemma escapeHtml_length (s : string) :
  (String.length s <= String.length (Html.escapeHtml s))%nat
  /\ (forall c, In c (Str.chars s) -> Str.is_markup c = true ->
                 String.length s < String.length (Html.escapeHtml s))%nat.
Proof.
  induction s as [|d s [IHle IHlt]]; [split; [reflexivity|intros c []]|].
  rewrite escapeHtml_cons, length_app.
  destruct (escapeChar_length d) as [Hle Hlt]. split; [simpl; lia|].
  intros c [->|Hc] Hm.
  - specialize (Hlt Hm). simpl. lia.
  - specialize (IHlt c Hc Hm). simpl. lia.
Qed.

(** X16: [escapeHtml] never shortens a text, and it leaves a text as it is
    exactly when the text holds none of the five markup characters. *)
Theorem escapeHtml_changes_only_markup (s : string) :
  (String.length s <= String.length (Html.escapeHtml s))%nat
  /\ (Html.escapeHtml s = s
      <-> forall c, In c (Str.chars s) -> Str.is_markup c = false).
Proof.
  destruct (escapeHtml_length s) as [Hle Hlt]. split; [exact Hle|]. split.
  - intros Hfix c Hc. destruct (Str.is_markup c) eqn:Hm; [|reflexivity].
    specialize (Hlt c Hc Hm). rewrite Hfix in Hlt. lia.
  - clear Hle Hlt. intros Hplain. induction s as [|c s IH]; [reflexivity|].
    rewrite escapeHtml_cons, escapeChar_plain, IH; [reflexivity| |].
    + intros d Hd. apply Hplain. now right.
    + apply Hplain. now left.
Qed.

(* ===================================================================== *)
(** ** The HTTP surface *)
(* ===================================================================== *)

(** The four routes that the HTTP callback answers. *)
Definition routed (method url : string) : Prop :=
  method = "GET"
  /\ (url = "/" \/ url = "/cart" \/ url = "/api/cart.json" \/ url = "/health").

Section HttpFacts.
Context `{Builtins}.

(** X17: whatever the method and the URL, the HTTP callback leaves the
    state as it was; it answers 200 on [GET] of one of its four routes, the
    URL compared as a whole, and 404 with the text [Not found] on everything
    else. *)
Theorem http_surface_is_read_only (method url : string) (s : Server) :
  execState (Html.httpHandler method url) s = s
  /\ (routed method url ->
      Html.status (evalState (Html.httpHandler method url) s) = 200%nat)
  /\ (~ routed method url ->
      evalState (Html.httpHandler method url) s
      = {| Html.status := 404; Html.contentType := "text/plain; charset=utf-8";
           Html.body := Html.PlainBody "Not found" |}).
Proof.
  unfold Html.httpHandler, routed.
  destruct (String.eqb_spec method "GET") as [->|Hm]; cbn [andb].
  - destruct (String.eqb_spec url "/") as [->|H1]; cbn [orb].
    { repeat split; intros Hno; exfalso; apply Hno; auto. }
    destruct (String.eqb_spec url "/cart") as [->|H2].
    { repeat split; intros Hno; exfalso; apply Hno; auto. }
    destruct (String.eqb_spec url "/api/cart.json") as [->|H3].
    { repeat split; intros Hno; exfalso; apply Hno; auto 6. }
    destruct (String.eqb_spec url "/health") as [->|H4].
    { repeat split; intros Hno; exfalso; apply Hno; auto 6. }
    repeat split. intros [_ [?|[?|[?|?]]]]; contradiction.
  - repeat split. intros [? _]; contradiction.
Qed.

(** X18: the two surfaces show the same snapshot: the body of
    [GET /api/cart.json] is the value that [get_cart] returns, and the page of
    [GET /cart] is the rendering of that same value. *)
Theorem both_surfaces_show_one_snapshot (s : Server) :
  exists totals,
    content (evalState get_cart s) = CartJson totals
    /\ Html.body (evalState (Html.httpHandler "GET" "/api/cart.json") s)
       = Html.JsonBody totals
    /\ Html.body (evalState (Html.httpHandler "GET" "/cart") s)
       = Html.HtmlBody (Html.renderPage totals)
    /\ Html.body (evalState (Html.httpHandler "GET" "/") s)
       = Html.HtmlBody (Html.renderPage totals)
    /\ List.length (Totals.items totals) = List.length (CART s).
Proof.
  exists (evalState cartTotals s). repeat split.
  unfold evalState. rewrite cartTotals_run. cbn [fst Totals.items].
  unfold JsMap.values. now rewrite !length_map.
Qed.

End HttpFacts.

Lemma http_surface_is_read_only_witness :
  Html.status (evalState (@Html.httpHandler reference "GET" "/health") threeMargheritas)
  = 200%nat
  /\ evalState (@Html.httpHandler reference "POST" "/cart") threeMargheritas
     = {| Html.status := 404; Html.contentType := "text/plain; charset=utf-8";
          Html.body := Html.PlainBody "Not found" |}
  /\ evalState (@Html.httpHandler reference "GET" "/cart?x=1") threeMargheritas
     = {| Html.status := 404; Html.contentType := "text/plain; charset=utf-8";
          Html.body := Html.PlainBody "Not found" |}.
Proof.
  split; [|split].
  - apply (@http_surface_is_read_only reference "GET" "/health" threeMargheritas).
    split; [reflexivity|]. right. right. right. reflexivity.
  - apply (@http_surface_is_read_only reference "POST" "/cart" threeMargheritas).
    intros [Hm _]. discriminate Hm.
  - apply (@http_surface_is_read_only reference "GET" "/cart?x=1" threeMargheritas).
    intros [_ [Hu|[Hu|[Hu|Hu]]]]; discriminate Hu.
Defined.








Section PageFacts.
Context `{Builtins}.


End PageFacts.


(* ===================================================================== *)
(** ** Narrowing the listing *)
(* ===================================================================== *)

(** The pizzas that [list_pizzas] replies with. *)
Definition listed (maxPrice : option float)
    (excludeAllergens includeIngredients : option (list string)) (s : Server)
  : list Pizza.t :=
  match content (evalState (list_pizzas maxPrice excludeAllergens includeIngredients) s) with
  | PizzasJson pizzas => pizzas
  | _ => []
  end.

Lemma listed_selected maxPrice excludeAllergens includeIngredients (s : Server) (p : Pizza.t) :
  In p (listed maxPrice excludeAllergens includeIngredients s)
  <-> In p (PIZZAS s) /\ selected maxPrice excludeAllergens includeIngredients p.
Proof.
  unfold listed, evalState. rewrite list_pizzas_run. cbn [fst content success].
  now rewrite filter_In, selectedb_spec.
Qed.

(** X20: a stricter call of [list_pizzas] returns no pizza that a looser
    call leaves out: a pizza returned with more allergens excluded and more
    ingredients required, under a price cap, is also returned with fewer
    excluded, fewer required, and with or without the cap; and every pizza
    returned is a pizza of the catalog. *)
Theorem more_filters_fewer_pizzas
    (s : Server) (maxPrice : option float) (ex ex' inc inc' : list string) (p : Pizza.t) :
  incl ex ex' -> incl inc inc' ->
  In p (listed maxPrice (Some ex') (Some inc') s) ->
  In p (listed maxPrice (Some ex) (Some inc) s)
  /\ In p (listed None (Some ex) (Some inc) s)
  /\ In p (listed maxPrice None None s)
  /\ In p (PIZZAS s).
Proof.
  intros Hex Hinc Hp. apply listed_selected in Hp.
  destruct Hp as [Hin [Hprice [Hno Hall]]].
  assert (Hno' : forall l, Some ex = Some l ->
                   forall a, In a (Pizza.allergens p) -> forall e, In e l -> ~ sameText a e).
  { intros l [= <-] a Ha e He. apply (Hno ex' eq_refl a Ha e). now apply Hex. }
  assert (Hall' : forall l, Some inc = Some l ->
                    forall i, In i l ->
                              exists g, In g (Pizza.ingredients p) /\ sameText g i).
  { intros l [= <-] i Hi. apply (Hall inc' eq_refl i). now apply Hinc. }
  repeat split; try exact Hin; try apply listed_selected;
    (split; [exact Hin|]); repeat split;
    try exact Hprice; try exact Hno'; try exact Hall'; discriminate.
Qed.

Lemma more_filters_fewer_pizzas_witness :
  In {| Pizza.name := "Margherita"; Pizza.price := 8%float;
        Pizza.ingredients := ["tomato"; "mozzarella"; "basil"];
        Pizza.allergens := ["gluten"; "milk"] |}
    (listed (Some 10%float) (Some ["Nuts"]) (Some ["BASIL"]) (boot menu)).
Proof.
  apply (more_filters_fewer_pizzas (boot menu) (Some 10%float)
           ["Nuts"] ["Nuts"; "fish"] ["BASIL"] ["BASIL"; "Tomato"]).
  - intros x [<-|[]]. now left.
  - intros x [<-|[]]. now left.
  - left. reflexivity.
Defined.

(* ===================================================================== *)
(** ** Where the catalog is read from *)
(* ===================================================================== *)

Lemma split_first_piece (sep : ascii) (s : string) :
  exists p ps, Str.split sep s = p :: ps.
Proof.
  induction s as [|c s [p [ps IH]]]; simpl; [now exists "", []|].
  destruct (Ascii.eqb c sep); [eexists; eexists; reflexivity|].
  rewrite IH. eexists; eexists; reflexivity.
Qed.

Lemma orDefault_not_empty (a : option string) (d : string) :
  d <> "" -> orDefault a d <> "".
Proof. destruct a as [[|c r]|]; simpl; auto. discriminate. Qed.

Lemma secondPiece_of_pizzas_argument (v : string) :
  secondPiece ("--pizzas=" ++ v) = Some (hd "" (Str.split "=" v)).
Proof.
  unfold secondPiece. cbn [String.append Str.split Ascii.eqb Bool.eqb].
  destruct (split_first_piece "=" v) as [p [ps ->]]. reflexivity.
Qed.

(** X21: the path of the catalog is never empty; a non-empty environment
    variable wins over the arguments; without it, the first argument that
    starts with [--pizzas=] gives the path, cut at the next [=] if its value
    has one, and an empty value falls back on [./pizzas.json], as does the
    absence of such an argument. *)
Theorem pizzasFile_resolution (env : Env) (argv : list string) :
  pizzasFile env argv <> ""
  /\ (forall e, env = Some e -> e <> "" -> pizzasFile env argv = e)
  /\ (env = None \/ env = Some "" ->
      (forall v, find (String.prefix "--pizzas=") argv = Some ("--pizzas=" ++ v) ->
                 pizzasFile env argv
                 = match hd "" (Str.split "=" v) with
                   | EmptyString => "./pizzas.json"
                   | path => path
                   end)
      /\ (find (String.prefix "--pizzas=") argv = None ->
          pizzasFile env argv = "./pizzas.json")).
Proof.
  unfold pizzasFile. split; [|split].
  - apply orDefault_not_empty. discriminate.
  - intros e -> He. destruct e as [|c r]; [congruence|reflexivity].
  - intros Hunset. assert (Henv : forall b, orElse env b = b).
    { intros b. destruct Hunset as [-> | ->]; reflexivity. }
    rewrite Henv. split.
    + intros v ->. rewrite secondPiece_of_pizzas_argument.
      now destruct (hd "" (Str.split "=" v)).
    + intros ->. reflexivity.
Qed.

Lemma pizzasFile_resolution_witness :
  pizzasFile (Some "/data/menu.txt") ["node"; "server.js"; "--pizzas=other.json"]
  = "/data/menu.txt"
  /\ pizzasFile None ["node"; "server.js"; "--pizzas=menu=v2.txt"; "--pizzas=x.json"]
     = "menu"
  /\ pizzasFile (Some "") ["node"; "server.js"; "--verbose"] = "./pizzas.json".
Proof.
  split; [|split].
  - apply (proj1 (proj2 (pizzasFile_resolution (Some "/data/menu.txt")
                           ["node"; "server.js"; "--pizzas=other.json"]))
             "/data/menu.txt"); [reflexivity|discriminate].
  - apply (proj1 (proj2 (proj2 (pizzasFile_resolution None
                                  ["node"; "server.js"; "--pizzas=menu=v2.txt";
                                   "--pizzas=x.json"])) (or_introl eq_refl))
             "menu=v2.txt").
    reflexivity.
  - apply (proj2 (proj2 (proj2 (pizzasFile_resolution (Some "")
                                  ["node"; "server.js"; "--verbose"]))
                   (or_intror eq_refl))).
    reflexivity.
Defined.

(* ===================================================================== *)
(** ** The outcome of a text load *)
(* ===================================================================== *)



(* ===================================================================== *)
(** ** Where a line stands in the cart *)
(* ===================================================================== *)

(** X23: a line that [remove_from_cart] deletes and that [add_to_cart]
    then creates again goes to the end of the cart: the other lines keep
    their order and the line comes last, as a new line with the quantity of
    the add alone. *)
Theorem removed_line_comes_back_last
    (s : Server) (name : string) (q1 q2 : Z) (pizza : Pizza.t) (line : CartLine.t) :
  evalState (findPizzaByName name) s = Some pizza ->
  JsMap.get (Str.toLowerCase (Str.trim name)) (CART s) = Some line ->
  CartLine.quantity line - q1 <= 0 ->
  let key := Str.toLowerCase (Str.trim name) in
  let s' := execState (add_to_cart name q2) (execState (remove_from_cart name q1) s) in
  JsMap.keys (CART s')
  = (filter (fun k => negb (String.eqb k key)) (JsMap.keys (CART s)) ++ [key])%list
  /\ JsMap.get key (CART s')
     = Some {| CartLine.name := Pizza.name pizza;
               CartLine.unitPrice := Pizza.price pizza;
               CartLine.quantity := 0 + q2 |}.
Proof.
  intros Hfind Hget Hgone key s'. subst key s'.
  unfold evalState in Hfind. rewrite findPizzaByName_run in Hfind. cbn [fst] in Hfind.
  rewrite add_to_cart_CART, remove_from_cart_PIZZAS, Hfind, remove_from_cart_CART.
  cbv zeta. rewrite Hget.
  destruct (Z.leb_spec (CartLine.quantity line - q1) 0); [|lia].
  rewrite (addedLine_key pizza name q2 _ (proj2 (lookupPizza_some _ _ _ Hfind))).
  rewrite get_delete_same, get_set_same. split; [|reflexivity].
  rewrite set_absent by apply get_delete_same.
  unfold JsMap.keys at 1. rewrite map_app. cbn [map fst].
  fold (JsMap.keys (JsMap.delete (Str.toLowerCase (Str.trim name)) (CART s))).
  now rewrite keys_delete.
Qed.

Lemma removed_line_comes_back_last_witness :
  let s := serve cheeseOrder (boot cheeseCatalog) in
  JsMap.keys (CART s) = ["brie"; "comte"]
  /\ JsMap.keys
       (CART (execState (add_to_cart "Brie" 4) (execState (remove_from_cart "Brie" 1) s)))
     = ["comte"; "brie"].
Proof.
  split; [reflexivity|].
  apply (removed_line_comes_back_last (serve cheeseOrder (boot cheeseCatalog))
           "Brie" 1 4
           {| Pizza.name := "Brie"; Pizza.price := 2.125%float;
              Pizza.ingredients := ["brie"]; Pizza.allergens := ["milk"] |}
           {| CartLine.name := "Brie"; CartLine.unitPrice := 2.125%float;
              CartLine.quantity := 1 |}).
  - reflexivity.
  - reflexivity.
  - vm_compute. discriminate.
Defined.
